(** * Soko backend (backend/server.js): a shallow embedding and its properties

    The server is an Express application over five Mongoose collections.
    Every route handler reads the request, runs a few guards, performs one or
    two collection operations and answers with a status code and a JSON body.
    The embedding follows that shape:

    - [Js]        the JavaScript values a JSON body can carry and the
                  operators the handlers apply to them ([!v], [v <= 0],
                  [a === b], [a || b], [a += b], [split(" ")[1]]);
    - [Mongoose]  the schema casts and the collection operations the
                  handlers call ([findOne], [find().limit()], [save],
                  [findByIdAndUpdate], [findByIdAndDelete], [sort]);
    - [Server]    the schemas, the handlers, the [auth] middleware and the
                  request dispatcher, as explicit state passing over a
                  [Store].

    Conventions of the model.
    - Numbers are the integers plus [NaN]; a JavaScript double agrees with
      them on integer values up to 2^53.  Fractions and the infinities are
      outside the model.
    - Body fields are JSON primitives (absent, null, boolean, number,
      string); arrays and nested objects are outside the model.
    - Strings are byte strings.
    - What the runtime chooses (a new [_id], the clock, the bcrypt salt) is
      an input of each request, the record [Env].
    - Each request runs to completion before the next one starts: what two
      requests in flight together do to each other between their reads and
      their saves is not modelled.  The theorems about one handler or one
      request are about a request that runs on its own. *)

From Stdlib Require Import ZArith String Ascii List Bool Lia.
From Stdlib Require Import Decimal DecimalString.
Import ListNotations.

Local Open Scope string_scope.
Local Open Scope Z_scope.

(* ===================================================================== *)
(** ** JavaScript values and operators *)
(* ===================================================================== *)

Module Js.

Inductive number : Type :=
| NaN
| Int (z : Z).

Inductive value : Type :=
| Undefined
| Null
| Bool (b : bool)
| Num (n : number)
| Str (s : string).

(** ToBoolean: [undefined], [null], [false], [0], [NaN] and [""] are falsy. *)
Definition truthy (v : value) : bool :=
  match v with
  | Undefined | Null => false
  | Bool b => b
  | Num NaN => false
  | Num (Int z) => negb (z =? 0)
  | Str s => negb (s =? "")%string
  end.

(** [!v] *)
Definition not (v : value) : bool := negb (truthy v).

(** [a || b] *)
Definition or (a b : value) : value := if truthy a then a else b.

Definition is_undefined (v : value) : bool :=
  match v with Undefined => true | _ => false end.

(** [typeof v === "boolean"] *)
Definition is_boolean (v : value) : bool :=
  match v with Bool _ => true | _ => false end.

(** White space that StringToNumber strips (the one-byte code points). *)
Definition is_space (c : ascii) : bool :=
  let n := nat_of_ascii c in
  ((9 <=? n) && (n <=? 13))%nat || (n =? 32)%nat.

Fixpoint trim_left (s : string) : string :=
  match s with
  | String c s' => if is_space c then trim_left s' else s
  | EmptyString => EmptyString
  end.

Fixpoint rev_string (s acc : string) : string :=
  match s with
  | String c s' => rev_string s' (String c acc)
  | EmptyString => acc
  end.

Definition trim (s : string) : string :=
  rev_string (trim_left (rev_string (trim_left s) "")) "".

(** StringToNumber on the integer literals: optional white space around an
    optional sign and decimal digits; the empty literal is 0.  Every other
    string is [NaN] here (hexadecimal, exponent and fraction literals denote
    numbers in JavaScript but are outside the integer model). *)
Definition string_to_number (s : string) : number :=
  match trim s with
  | EmptyString => Int 0
  | String "+" d =>
      match NilZero.uint_of_string d with
      | Some u => Int (Z.of_uint u)
      | None => NaN
      end
  | t =>
      match NilZero.int_of_string t with
      | Some i => Int (Z.of_int i)
      | None => NaN
      end
  end.

(** ToNumber *)
Definition to_number (v : value) : number :=
  match v with
  | Undefined => NaN
  | Null => Int 0
  | Bool true => Int 1
  | Bool false => Int 0
  | Num n => n
  | Str s => string_to_number s
  end.

Definition number_to_string (n : number) : string :=
  match n with
  | NaN => "NaN"
  | Int z => NilZero.string_of_int (Z.to_int z)
  end.

(** ToString *)
Definition to_string (v : value) : string :=
  match v with
  | Undefined => "undefined"
  | Null => "null"
  | Bool true => "true"
  | Bool false => "false"
  | Num n => number_to_string n
  | Str s => s
  end.

(** [v <= k] for a number literal [k]: the comparison is numeric, and any
    comparison with [NaN] is false. *)
Definition le_num (v : value) (k : Z) : bool :=
  match to_number v with
  | NaN => false
  | Int z => z <=? k
  end.

(** [a === b] *)
Definition strict_eq (a b : value) : bool :=
  match a, b with
  | Undefined, Undefined => true
  | Null, Null => true
  | Bool x, Bool y => Bool.eqb x y
  | Num (Int x), Num (Int y) => x =? y
  | Str x, Str y => (x =? y)%string
  | _, _ => false
  end.

(** [a + b]: concatenation when one side is a string, addition otherwise. *)
Definition plus (a b : value) : value :=
  match a, b with
  | Str _, _ | _, Str _ => Str (to_string a ++ to_string b)
  | _, _ =>
      match to_number a, to_number b with
      | Int x, Int y => Num (Int (x + y))
      | _, _ => Num NaN
      end
  end.

(** [s.split(sep)] for a one-character separator: the pieces between the
    separators, in order; a string without separator is a single piece. *)
Fixpoint split (sep : ascii) (s : string) : list string :=
  match s with
  | EmptyString => [EmptyString]
  | String c s' =>
      if Ascii.eqb c sep then EmptyString :: split sep s'
      else
        match split sep s' with
        | piece :: pieces => String c piece :: pieces
        | [] => [String c EmptyString]
        end
  end.

(** [xs.includes(v)] on an array of strings. *)
Definition includes (xs : list string) (v : value) : bool :=
  existsb (fun x => strict_eq (Str x) v) xs.

(** [xs.findIndex(p)]: [None] stands for -1. *)
Fixpoint findIndex {A : Type} (p : A -> bool) (xs : list A) : option nat :=
  match xs with
  | [] => None
  | x :: xs' => if p x then Some O else option_map S (findIndex p xs')
  end.

(** [xs[i]]: reading past the end gives [undefined]. *)
Definition index (xs : list string) (i : nat) : value :=
  match nth_error xs i with
  | Some s => Str s
  | None => Undefined
  end.

End Js.

(* ===================================================================== *)
(** ** Mongoose: schema casts and collection operations *)
(* ===================================================================== *)

Module Mongoose.

(** An [ObjectId] is kept in the form [toString()] prints it: 24 lower-case
    hexadecimal digits. *)
Definition ObjectId : Type := string.

(** A path of a stored document: not set, [null], or a value. *)
Inductive field (A : Type) : Type :=
| Missing
| Nul
| Val (a : A).
Arguments Missing {A}.
Arguments Nul {A}.
Arguments Val {A} a.

(** The casts return [None] for a CastError. *)

Definition castString (v : Js.value) : option (field string) :=
  match v with
  | Js.Undefined => Some Missing
  | Js.Null => Some Nul
  | _ => Some (Val (Js.to_string v))
  end.

Definition castNumber (v : Js.value) : option (field Z) :=
  match v with
  | Js.Undefined => Some Missing
  | Js.Null => Some Nul
  | Js.Str EmptyString => Some Nul
  | _ =>
      match Js.to_number v with
      | Js.NaN => None
      | Js.Int z => Some (Val z)
      end
  end.

Definition castBoolean (v : Js.value) : option (field bool) :=
  match v with
  | Js.Undefined => Some Missing
  | Js.Null => Some Nul
  | Js.Bool b => Some (Val b)
  | Js.Num (Js.Int 1) => Some (Val true)
  | Js.Num (Js.Int 0) => Some (Val false)
  | Js.Str s =>
      if ((s =? "true") || (s =? "1") || (s =? "yes"))%string
      then Some (Val true)
      else if ((s =? "false") || (s =? "0") || (s =? "no"))%string
      then Some (Val false)
      else None
  | _ => None
  end.

Definition is_hex (c : ascii) : bool :=
  let n := nat_of_ascii c in
  (((48 <=? n) && (n <=? 57)) || ((65 <=? n) && (n <=? 70))
   || ((97 <=? n) && (n <=? 102)))%nat.

Definition lower (c : ascii) : ascii :=
  let n := nat_of_ascii c in
  if ((65 <=? n) && (n <=? 90))%nat then ascii_of_nat (n + 32) else c.

Fixpoint all_chars (p : ascii -> bool) (s : string) : bool :=
  match s with
  | EmptyString => true
  | String c s' => p c && all_chars p s'
  end.

Fixpoint map_chars (f : ascii -> ascii) (s : string) : string :=
  match s with
  | EmptyString => EmptyString
  | String c s' => String (f c) (map_chars f s')
  end.

(** A string of 24 hexadecimal digits of either case is an ObjectId; it
    prints in lower case.  (The 12-byte raw form that some driver versions
    also accept is not modelled: it is a CastError here.) *)
Definition castObjectId (v : Js.value) : option (field ObjectId) :=
  match v with
  | Js.Undefined => Some Missing
  | Js.Null => Some Nul
  | _ =>
      let s := Js.to_string v in
      if ((String.length s =? 24)%nat && all_chars is_hex s)
      then Some (Val (map_chars lower s))
      else None
  end.

(** The strings that are the printed form of an ObjectId. *)
Definition is_ObjectId (s : string) : bool :=
  (String.length s =? 24)%nat && all_chars is_hex s
  && (map_chars lower s =? s)%string.

(** Documents carry an [_id]. *)
Class Document (A : Type) := doc_id : A -> ObjectId.

Section Collection.
Context {A : Type} `{Document A}.

Definition has_id (id : ObjectId) (d : A) : bool := (doc_id d =? id)%string.

(** [Model.findOne(filter)]: the first match in natural order. *)
Definition findOne (filter : A -> bool) (c : list A) : option A :=
  List.find filter c.

(** [Model.find(filter)] and [.limit(n)] *)
Definition find (filter : A -> bool) (c : list A) : list A :=
  List.filter filter c.

Definition limit (n : nat) (c : list A) : list A := firstn n c.

(** [doc.save()] of a new document: an insert, refused (duplicate key) when
    the [_id] is taken. *)
Definition insert (d : A) (c : list A) : option (list A) :=
  if existsb (has_id (doc_id d)) c then None else Some (c ++ [d])%list.

(** [doc.save()] of a document that was read from the collection: the
    stored document with that [_id] is replaced. *)
Fixpoint update (d : A) (c : list A) : list A :=
  match c with
  | [] => []
  | x :: c' => if has_id (doc_id d) x then d :: c' else x :: update d c'
  end.

(** [Model.findByIdAndUpdate(id, change, { new: true })]: the changed
    document and the collection holding it, or [None] when no document has
    that [_id]. *)
Fixpoint findByIdAndUpdate (id : ObjectId) (change : A -> A) (c : list A)
  : option (A * list A) :=
  match c with
  | [] => None
  | x :: c' =>
      if has_id id x then Some (change x, change x :: c')
      else
        match findByIdAndUpdate id change c' with
        | Some (d, c'') => Some (d, x :: c'')
        | None => None
        end
  end.

(** [Model.findByIdAndDelete(id)]: the deleted document and what is left. *)
Fixpoint findByIdAndDelete (id : ObjectId) (c : list A)
  : option (A * list A) :=
  match c with
  | [] => None
  | x :: c' =>
      if has_id id x then Some (x, c')
      else
        match findByIdAndDelete id c' with
        | Some (d, c'') => Some (d, x :: c'')
        | None => None
        end
  end.

(** [.sort({ key: 1 })]: ascending by a numeric key; insertion keeps the
    natural order among equal keys. *)
Fixpoint sort_insert (key : A -> Z) (d : A) (c : list A) : list A :=
  match c with
  | [] => [d]
  | x :: c' =>
      if key d <=? key x then d :: x :: c' else x :: sort_insert key d c'
  end.

Fixpoint sort (key : A -> Z) (c : list A) : list A :=
  match c with
  | [] => []
  | x :: c' => sort_insert key x (sort key c')
  end.

(** What matters of the sorted order for [findOne]: no element has a
    smaller key than the first. *)
Definition least_first (key : A -> Z) (c : list A) : Prop :=
  match c with
  | [] => True
  | b :: _ => forall x, In x c -> key b <= key x
  end.

(** [Model.findOne(filter).sort({ key: 1 })]: the first match in sorted
    order. *)
Definition findOne_sorted (filter : A -> bool) (key : A -> Z) (c : list A)
  : option A :=
  hd_error (sort key (find filter c)).

End Collection.

End Mongoose.

(* ===================================================================== *)
(** ** bcryptjs *)
(* ===================================================================== *)

Module Bcrypt.

(** A digest, idealised: it records the salt and the password it was made
    from, so that two digests agree only on equal passwords.  Both functions
    throw ("Illegal arguments") on a password that is not a string: [None]. *)
Inductive digest : Type := Digest (salt plain : string).

Definition hash (salt : string) (password : Js.value) : option digest :=
  match password with
  | Js.Str p => Some (Digest salt p)
  | _ => None
  end.

Definition compare (password : Js.value) (d : digest) : option bool :=
  match password, d with
  | Js.Str p, Digest _ plain => Some (p =? plain)%string
  | _, _ => None
  end.

End Bcrypt.

(* ===================================================================== *)
(** ** The server: schemas *)
(* ===================================================================== *)

Module Server.

Import Mongoose.

(** userSchema *)
Module User.
Record t : Type := make
  { _id : ObjectId;
    name : string;
    email : string;
    password : Bcrypt.digest;
    role : field string }.
End User.

(** productSchema *)
Module Product.
Record t : Type := make
  { _id : ObjectId;
    name : string;
    price : Z;
    description : field string;
    image : field string;
    category : field string;
    discount : Z;
    featured : bool;
    createdBy : ObjectId }.
End Product.

(** One element of [cartSchema.products] and of [orderSchema.items]. *)
Module Line.
Record t : Type := make
  { product : ObjectId;
    quantity : Z }.
End Line.

(** cartSchema *)
Module Cart.
Record t : Type := make
  { _id : ObjectId;
    user : ObjectId;
    products : list Line.t }.
End Cart.

(** orderSchema *)
Module Order.
Record t : Type := make
  { _id : ObjectId;
    user : ObjectId;
    items : list Line.t;
    createdAt : Z }.
End Order.

(** bannerSchema *)
Module Banner.
Record t : Type := make
  { _id : ObjectId;
    image : string;
    title : field string;
    subtitle : field string;
    link : field string;
    active : field bool;
    order : Z }.
End Banner.

#[export] Instance User_Document : Document User.t := User._id.
#[export] Instance Product_Document : Document Product.t := Product._id.
#[export] Instance Cart_Document : Document Cart.t := Cart._id.
#[export] Instance Order_Document : Document Order.t := Order._id.
#[export] Instance Banner_Document : Document Banner.t := Banner._id.

(** The five collections. *)
Record Store : Type := mkStore
  { users : list User.t;
    products : list Product.t;
    carts : list Cart.t;
    orders : list Order.t;
    banners : list Banner.t }.

Definition empty_store : Store := mkStore [] [] [] [] [].

Definition set_users (s : Store) (c : list User.t) : Store :=
  mkStore c (products s) (carts s) (orders s) (banners s).
Definition set_products (s : Store) (c : list Product.t) : Store :=
  mkStore (users s) c (carts s) (orders s) (banners s).
Definition set_carts (s : Store) (c : list Cart.t) : Store :=
  mkStore (users s) (products s) c (orders s) (banners s).
Definition set_orders (s : Store) (c : list Order.t) : Store :=
  mkStore (users s) (products s) (carts s) c (banners s).
Definition set_banners (s : Store) (c : list Banner.t) : Store :=
  mkStore (users s) (products s) (carts s) (orders s) c.

(** What the runtime supplies to one request: the [_id] a new document gets,
    [Date.now()], and the salt bcrypt draws. *)
Record Env : Type := mkEnv
  { fresh_id : ObjectId;
    now : Z;
    salt : string }.

(** [req.user]: the payload of a verified token.  The [id] is the [_id] of a
    user as [login] signed it; the [role] is whatever value the payload
    carries. *)
Record Identity : Type := mkIdentity
  { id : ObjectId;
    role : Js.value }.

(** A cart or an order after [populate]: each product reference replaced by
    the product, or by [null] when it is gone. *)
Definition populated : Type := list (option Product.t * Z).

Inductive Body : Type :=
| Message (message : string)
| Failure (message : string)    (* { message, error: error.message } *)
| TokenBody (token : string)
| ProductList (l : list (Product.t * option string))
| FeaturedList (l : list Product.t)
| ProductBody (p : Product.t)
| CartBody (c : Cart.t)
| CartView (c : Cart.t) (lines : populated)
| EmptyCart                     (* { products: [] } *)
| OrderBody (o : Order.t)
| OrderList (l : list (Order.t * populated))
| BannerBody (b : Banner.t)
| ImageUrl (imageUrl : string).

Record Response : Type := mkResponse
  { status : Z;
    body : Body }.

(** The names the interface description gives to the failure statuses
    (the handlers themselves only write the numbers). *)
Inductive ErrorKind : Type :=
| ValidationError | Unauthenticated | Forbidden | NotFound | InternalError.

Definition status_of (k : ErrorKind) : Z :=
  match k with
  | ValidationError => 400
  | Unauthenticated => 401
  | Forbidden => 403
  | NotFound => 404
  | InternalError => 500
  end.

(** [res.status(code).json(body)] and [res.json(body)] *)
Definition json (code : Z) (b : Body) : Response := mkResponse code b.
Definition ok (b : Body) : Response := mkResponse 200 b.

(* ===================================================================== *)
(** ** Schema validation: what [new Model({...})] followed by [save()] checks *)
(* ===================================================================== *)

(** A path declared [required: true]: set and not [null]. *)
Definition required {A : Type} (f : option (field A)) : option A :=
  match f with
  | Some (Val a) => Some a
  | _ => None
  end.

(** A required String path must also be non-empty. *)
Definition required_string (f : option (field string)) : option string :=
  match f with
  | Some (Val a) => if (a =? "")%string then None else Some a
  | _ => None
  end.

(** A path declared with [default: d]: the default replaces [undefined]. *)
Definition with_default {A : Type} (d : A) (f : option (field A))
  : option (field A) :=
  match f with
  | Some Missing => Some (Val d)
  | _ => f
  end.

(** [new User({ name, email, password: hashedPassword, role })] *)
Definition new_User (_id : ObjectId) (name email : Js.value)
    (hashedPassword : Bcrypt.digest) (role : Js.value) : option User.t :=
  match required_string (castString name),
        required_string (castString email),
        with_default "buyer" (castString role) with
  | Some n, Some e, Some r => Some (User.make _id n e hashedPassword r)
  | _, _, _ => None
  end.

(** [new Product({ name, price, description, image, category, discount,
    featured, createdBy })] *)
Definition new_Product (_id : ObjectId)
    (name price description image category discount : Js.value)
    (featured : bool) (createdBy : ObjectId) : option Product.t :=
  match required_string (castString name), required (castNumber price),
        castString description, castString image, castString category,
        required (with_default 0 (castNumber discount)) with
  | Some n, Some p, Some d, Some i, Some c, Some disc =>
      Some (Product.make _id n p d i c disc featured createdBy)
  | _, _, _, _, _, _ => None
  end.

(** One element [{ product, quantity }] of a cart's [products] array.  The
    handlers only pass truthy values here, which cast to a value or fail, so
    a stored line always has both. *)
Definition new_Line (product quantity : Js.value) : option Line.t :=
  match required (castObjectId product), required (castNumber quantity) with
  | Some p, Some q => Some (Line.make p q)
  | _, _ => None
  end.

(** [new Banner({ image, title, subtitle, link, active, order })] *)
Definition new_Banner (_id : ObjectId)
    (image title subtitle link active order : Js.value) : option Banner.t :=
  match required_string (castString image),
        castString title, castString subtitle, castString link,
        with_default true (castBoolean active),
        required (with_default 0 (castNumber order)) with
  | Some i, Some t, Some st, Some l, Some a, Some o =>
      Some (Banner.make _id i t st l a o)
  | _, _, _, _, _, _ => None
  end.

(* ===================================================================== *)
(** ** Route handlers *)
(* ===================================================================== *)

(** [!["admin", "poster"].includes(req.user.role)] *)
Definition not_authorized (user : Identity) : bool :=
  negb (Js.includes ["admin"; "poster"] (role user)).

Definition owned_by (user : Identity) (c : Cart.t) : bool :=
  (Cart.user c =? id user)%string.

Definition populate_lines (s : Store) (ls : list Line.t) : populated :=
  map (fun l => (findOne (has_id (Line.product l)) (products s),
                 Line.quantity l)) ls.

(** POST /api/register *)
Definition post_register (s : Store) (e : Env)
    (name email password role : Js.value) : Store * Response :=
  if Js.not name || Js.not email || Js.not password then
    (s, json 400 (Message "Name, email and password are required"))
  else
    let failed := (s, json 400 (Failure "Error registering user")) in
    match castString email with
    | Some (Val address) =>
        match findOne (fun u => (User.email u =? address)%string) (users s) with
        | Some _ => (s, json 400 (Message "Email already registered"))
        | None =>
            match Bcrypt.hash (salt e) password with
            | Some hashedPassword =>
                match new_User (fresh_id e) name email hashedPassword role with
                | Some user =>
                    match insert user (users s) with
                    | Some us =>
                        (set_users s us,
                         json 201 (Message "User registered successfully!"))
                    | None => failed
                    end
                | None => failed
                end
            | None => failed
            end
        end
    | _ => failed
    end.

(** GET /api/products *)
Definition get_products (s : Store) : Response :=
  ok (ProductList
        (map (fun p => (p, option_map User.name
                             (findOne (has_id (Product.createdBy p)) (users s))))
             (find (fun _ => true) (products s)))).

(** GET /api/products/featured *)
Definition get_products_featured (s : Store) : Response :=
  ok (FeaturedList (limit 8 (find Product.featured (products s)))).

(** POST /api/products *)
Definition post_products (s : Store) (e : Env) (user : Identity)
    (name price description image category discount featured : Js.value)
  : Store * Response :=
  if not_authorized user then (s, json 403 (Message "Not authorized"))
  else if Js.not name || Js.is_undefined price then
    (s, json 400 (Message "Name and price are required"))
  else
    let isFeatured :=
      Js.strict_eq featured (Js.Bool true)
      || Js.strict_eq featured (Js.Str "true")
      || Js.strict_eq featured (Js.Num (Js.Int 1))
      || Js.strict_eq featured (Js.Str "1") in
    let failed := (s, json 500 (Failure "Error adding product")) in
    match new_Product (fresh_id e) name price description image category
            (Js.or discount (Js.Num (Js.Int 0))) isFeatured (id user) with
    | Some product =>
        match insert product (products s) with
        | Some ps => (set_products s ps, json 201 (ProductBody product))
        | None => failed
        end
    | None => failed
    end.

Definition set_featured (b : bool) (p : Product.t) : Product.t :=
  Product.make (Product._id p) (Product.name p) (Product.price p)
    (Product.description p) (Product.image p) (Product.category p)
    (Product.discount p) b (Product.createdBy p).

(** PUT /api/products/:id/featured *)
Definition put_products_featured (s : Store) (user : Identity)
    (id : string) (featured : Js.value) : Store * Response :=
  if not_authorized user then (s, json 403 (Message "Not authorized"))
  else
    match featured with
    | Js.Bool b =>
        match castObjectId (Js.Str id) with
        | Some (Val oid) =>
            match findByIdAndUpdate oid (set_featured b) (products s) with
            | Some (product, ps) => (set_products s ps, ok (ProductBody product))
            | None => (s, json 404 (Message "Product not found"))
            end
        | _ => (s, json 500 (Failure "Error updating featured status"))
        end
    | _ => (s, json 400 (Message "featured field must be boolean"))
    end.

(** DELETE /api/products/:id *)
Definition delete_products (s : Store) (user : Identity) (id : string)
  : Store * Response :=
  if not_authorized user then (s, json 403 (Message "Not authorized"))
  else
    match castObjectId (Js.Str id) with
    | Some (Val oid) =>
        match findByIdAndDelete oid (products s) with
        | Some (_, ps) =>
            (set_products s ps, ok (Message "Product deleted successfully"))
        | None => (s, json 404 (Message "Product not found"))
        end
    | _ => (s, json 500 (Failure "Error deleting product"))
    end.

(** POST /api/upload, after multer stored the file under
    [Date.now()] followed by the extension of its original name. *)
Definition post_upload (e : Env) (protocol host : string)
    (file : option string) : Response :=
  match file with
  | None => json 400 (Message "No file uploaded")
  | Some ext =>
      let filename := Js.number_to_string (Js.Int (now e)) ++ ext in
      ok (ImageUrl (protocol ++ "://" ++ host ++ "/uploads/" ++ filename))
  end.

(** [line.quantity += quantity]: the sum is cast back to the Number path. *)
Definition add_quantity (quantity : Js.value) (l : Line.t) : option Line.t :=
  match required
          (castNumber (Js.plus (Js.Num (Js.Int (Line.quantity l))) quantity)) with
  | Some q => Some (Line.make (Line.product l) q)
  | None => None
  end.

(** [xs[index] = change(xs[index])]; [None] when the change fails or there
    is no such element. *)
Fixpoint update_at {A : Type} (index : nat) (change : A -> option A)
    (xs : list A) : option (list A) :=
  match xs, index with
  | [], _ => None
  | x :: xs', O => option_map (fun x' => x' :: xs') (change x)
  | x :: xs', S i => option_map (cons x) (update_at i change xs')
  end.

Definition line_of (productId : Js.value) (p : Line.t) : bool :=
  Js.strict_eq (Js.Str (Line.product p)) productId.

(** POST /api/cart *)
Definition post_cart (s : Store) (e : Env) (user : Identity)
    (productId quantity : Js.value) : Store * Response :=
  if Js.not productId || Js.not quantity || Js.le_num quantity 0 then
    (s, json 400 (Message "Valid productId and quantity are required"))
  else
    let failed := (s, json 500 (Failure "Error adding to cart")) in
    match findOne (owned_by user) (carts s) with
    | None =>
        match new_Line productId quantity with
        | Some l =>
            let cart := Cart.make (fresh_id e) (id user) [l] in
            match insert cart (carts s) with
            | Some cs => (set_carts s cs, ok (CartBody cart))
            | None => failed
            end
        | None => failed
        end
    | Some cart =>
        let changed :=
          match Js.findIndex (line_of productId) (Cart.products cart) with
          | Some index =>
              update_at index (add_quantity quantity) (Cart.products cart)
          | None =>
              option_map (fun l => (Cart.products cart ++ [l])%list)
                (new_Line productId quantity)
          end in
        match changed with
        | Some ps =>
            let cart' := Cart.make (Cart._id cart) (Cart.user cart) ps in
            (set_carts s (update cart' (carts s)), ok (CartBody cart'))
        | None => failed
        end
    end.

(** GET /api/cart *)
Definition get_cart (s : Store) (user : Identity) : Response :=
  match findOne (owned_by user) (carts s) with
  | None => ok EmptyCart
  | Some cart => ok (CartView cart (populate_lines s (Cart.products cart)))
  end.

(** DELETE /api/cart/:productId *)
Definition delete_cart (s : Store) (user : Identity) (productId : string)
  : Store * Response :=
  match findOne (owned_by user) (carts s) with
  | None => (s, json 404 (Message "Cart not found"))
  | Some cart =>
      let cart' :=
        Cart.make (Cart._id cart) (Cart.user cart)
          (filter (fun p => negb (Line.product p =? productId)%string)
                  (Cart.products cart)) in
      (set_carts s (update cart' (carts s)), ok (CartBody cart'))
  end.

Definition is_active (b : Banner.t) : bool :=
  match Banner.active b with
  | Val true => true
  | _ => false
  end.

(** GET /api/banner *)
Definition get_banner (s : Store) : Response :=
  match findOne_sorted is_active Banner.order (banners s) with
  | None => json 404 (Message "No active banner found")
  | Some banner => ok (BannerBody banner)
  end.

(** POST /api/banner *)
Definition post_banner (s : Store) (e : Env) (user : Identity)
    (image title subtitle link active order : Js.value) : Store * Response :=
  if not_authorized user then (s, json 403 (Message "Not authorized"))
  else if Js.not image then (s, json 400 (Message "Image is required"))
  else
    let failed := (s, json 500 (Failure "Error creating banner")) in
    match new_Banner (fresh_id e) image title subtitle link
            (if Js.is_undefined active then Js.Bool true else active)
            (Js.or order (Js.Num (Js.Int 0))) with
    | Some banner =>
        match insert banner (banners s) with
        | Some bs => (set_banners s bs, json 201 (BannerBody banner))
        | None => failed
        end
    | None => failed
    end.

(** POST /api/orders *)
Definition post_orders (s : Store) (e : Env) (user : Identity)
  : Store * Response :=
  let empty := (s, json 400 (Message "Cart is empty")) in
  match findOne (owned_by user) (carts s) with
  | None => empty
  | Some cart =>
      if (List.length (Cart.products cart) =? 0)%nat then empty
      else
        let order :=
          Order.make (fresh_id e) (id user)
            (map (fun p => Line.make (Line.product p) (Line.quantity p))
                 (Cart.products cart))
            (now e) in
        match insert order (orders s) with
        | Some os =>
            let cart' := Cart.make (Cart._id cart) (Cart.user cart) [] in
            (set_carts (set_orders s os) (update cart' (carts s)),
             json 201 (OrderBody order))
        | None => (s, json 500 (Failure "Error creating order"))
        end
  end.

(** GET /api/orders *)
Definition get_orders (s : Store) (user : Identity) : Response :=
  ok (OrderList
        (map (fun o => (o, populate_lines s (Order.items o)))
             (find (fun o => (Order.user o =? id user)%string) (orders s)))).

(* ===================================================================== *)
(** ** Tokens, the [auth] middleware, login and the dispatcher *)
(* ===================================================================== *)

Section Tokens.

(** jsonwebtoken, for the secret the process runs with:
    [jwt_sign now payload] is [jwt.sign(payload, secret, {expiresIn: "1h"})]
    at time [now], and [jwt_verify now token] is [jwt.verify(token, secret)],
    [None] when it throws. *)
Variable jwt_sign : Z -> Identity -> string.
Variable jwt_verify : Z -> string -> option Identity.

(** The [auth] middleware: the identity it attaches to the request, or the
    response it ends the request with. *)
Definition auth (e : Env) (authorization : option string)
  : Identity + Response :=
  let token :=
    match authorization with
    | Some header => Js.index (Js.split " " header) 1
    | None => Js.Undefined
    end in
  if Js.not token then inr (json 401 (Message "No token provided"))
  else
    match jwt_verify (now e) (Js.to_string token) with
    | Some decoded => inl decoded
    | None => inr (json 401 (Message "Invalid token"))
    end.

Definition role_value (r : field string) : Js.value :=
  match r with
  | Missing => Js.Undefined
  | Nul => Js.Null
  | Val s => Js.Str s
  end.

(** POST /api/login *)
Definition post_login (s : Store) (e : Env) (email password : Js.value)
  : Response :=
  if Js.not email || Js.not password then
    json 400 (Message "Email and password required")
  else
    let failed := json 500 (Failure "Login failed") in
    match castString email with
    | Some (Val address) =>
        match findOne (fun u => (User.email u =? address)%string) (users s) with
        | None => json 400 (Message "User not found")
        | Some user =>
            match Bcrypt.compare password (User.password user) with
            | Some true =>
                ok (TokenBody
                      (jwt_sign (now e)
                         (mkIdentity (User._id user)
                            (role_value (User.role user)))))
            | Some false => json 400 (Message "Incorrect password")
            | None => failed
            end
        end
    | _ => failed
    end.

Inductive Request : Type :=
| PostRegister (name email password role : Js.value)
| PostLogin (email password : Js.value)
| GetProducts
| GetProductsFeatured
| PostProducts (authorization : option string)
    (name price description image category discount featured : Js.value)
| PutProductsFeatured (authorization : option string) (id : string)
    (featured : Js.value)
| DeleteProducts (authorization : option string) (id : string)
| PostUpload (authorization : option string) (protocol host : string)
    (file : option string)
| PostCart (authorization : option string) (productId quantity : Js.value)
| GetCart (authorization : option string)
| DeleteCart (authorization : option string) (productId : string)
| GetBanner
| PostBanner (authorization : option string)
    (image title subtitle link active order : Js.value)
| PostOrders (authorization : option string)
| GetOrders (authorization : option string).

(** A route registered with [auth] in front of its handler. *)
Definition protected (s : Store) (e : Env) (authorization : option string)
    (handler : Identity -> Store * Response) : Store * Response :=
  match auth e authorization with
  | inl user => handler user
  | inr refused => (s, refused)
  end.

(** One request against the store. *)
Definition handle (s : Store) (e : Env) (r : Request) : Store * Response :=
  match r with
  | PostRegister name email password role =>
      post_register s e name email password role
  | PostLogin email password => (s, post_login s e email password)
  | GetProducts => (s, get_products s)
  | GetProductsFeatured => (s, get_products_featured s)
  | PostProducts a name price description image category discount featured =>
      protected s e a (fun user =>
        post_products s e user name price description image category
          discount featured)
  | PutProductsFeatured a id featured =>
      protected s e a (fun user => put_products_featured s user id featured)
  | DeleteProducts a id =>
      protected s e a (fun user => delete_products s user id)
  | PostUpload a protocol host file =>
      protected s e a (fun _ => (s, post_upload e protocol host file))
  | PostCart a productId quantity =>
      protected s e a (fun user => post_cart s e user productId quantity)
  | GetCart a => protected s e a (fun user => (s, get_cart s user))
  | DeleteCart a productId =>
      protected s e a (fun user => delete_cart s user productId)
  | GetBanner => (s, get_banner s)
  | PostBanner a image title subtitle link active order =>
      protected s e a (fun user =>
        post_banner s e user image title subtitle link active order)
  | PostOrders a => protected s e a (fun user => post_orders s e user)
  | GetOrders a => protected s e a (fun user => (s, get_orders s user))
  end.

(** A sequence of requests handled one after the other, each with what the
    runtime supplied to it. *)
Fixpoint run (s : Store) (rs : list (Env * Request)) : Store :=
  match rs with
  | [] => s
  | (e, r) :: rs' => run (fst (handle s e r)) rs'
  end.

End Tokens.

(** The [_id] index of the carts collection: no two carts share an [_id]. *)
Definition unique_cart_ids (s : Store) : Prop :=
  NoDup (map Cart._id (carts s)).

(** The lines of the user's cart, none when there is no cart (what
    GET /api/cart shows). *)
Definition cart_lines (s : Store) (user : Identity) : list Line.t :=
  match findOne (owned_by user) (carts s) with
  | Some cart => Cart.products cart
  | None => []
  end.

(** The lines of a cart that refer to one product. *)
Definition lines_for (p : ObjectId) (ls : list Line.t) : list Line.t :=
  filter (fun l => (Line.product l =? p)%string) ls.

(** No two users share an email (what [unique: true] on [email] asks for). *)
Definition unique_emails (s : Store) : Prop :=
  NoDup (map User.email (users s)).

(** No two carts belong to the same user. *)
Definition one_cart_per_user (s : Store) : Prop :=
  NoDup (map Cart.user (carts s)).

(** The [_id] index of the products collection. *)
Definition unique_product_ids (s : Store) : Prop :=
  NoDup (map Product._id (products s)).

(** Every line of every cart has a quantity above zero. *)
Definition positive_quantities (s : Store) : Prop :=
  forall cart l,
    In cart (carts s) -> In l (Cart.products cart) -> 0 < Line.quantity l.

(** The Authorization header of a request to a route that has [auth] in
    front of its handler; [None] for the routes that have not. *)
Definition authorization_of (r : Request) : option (option string) :=
  match r with
  | PostRegister _ _ _ _ | PostLogin _ _ => None
  | GetProducts | GetProductsFeatured | GetBanner => None
  | PostProducts a _ _ _ _ _ _ _ => Some a
  | PutProductsFeatured a _ _ => Some a
  | DeleteProducts a _ => Some a
  | PostUpload a _ _ _ => Some a
  | PostCart a _ _ => Some a
  | GetCart a => Some a
  | DeleteCart a _ => Some a
  | PostBanner a _ _ _ _ _ _ => Some a
  | PostOrders a => Some a
  | GetOrders a => Some a
  end.

(** The ways a handler run for [user] writes the carts collection: not at
    all, by saving the user's cart again under its [_id] and owner, or by
    inserting the user's first cart. *)
Definition cart_write (s : Store) (user : Identity) (cs : list Cart.t)
  : Prop :=
  cs = carts s
  \/ (exists cart cart',
        findOne (owned_by user) (carts s) = Some cart
        /\ Cart._id cart' = Cart._id cart
        /\ Cart.user cart' = Cart.user cart
        /\ cs = update cart' (carts s))
  \/ (exists cart,
        findOne (owned_by user) (carts s) = None
        /\ Cart.user cart = id user
        /\ insert cart (carts s) = Some cs).

(** No cart has two lines for the same product. *)
Definition distinct_products (s : Store) : Prop :=
  forall cart,
    In cart (carts s) -> NoDup (map Line.product (Cart.products cart)).

(** A request that, if it adds to a cart, names the product by the printed
    form of its [_id] (or by something that is no ObjectId at all). *)
Definition printed_product (r : Request) : Prop :=
  match r with
  | PostCart _ productId _ =>
      forall p, castObjectId productId = Some (Val p) -> productId = Js.Str p
  | _ => True
  end.

(** A request that, if it adds to a cart, gives the quantity as a number. *)
Definition numeric_quantity (r : Request) : Prop :=
  match r with
  | PostCart _ _ quantity => exists n, quantity = Js.Num n
  | _ => True
  end.

End Server.

(* ===================================================================== *)
(** ** Sample data *)
(* ===================================================================== *)

Module Sample.

Import Mongoose Server.

Definition alice : Identity :=
  mkIdentity "64b000000000000000000001" (Js.Str "buyer").
Definition admin : Identity :=
  mkIdentity "64b000000000000000000002" (Js.Str "admin").

Definition soap : ObjectId := "64c0000000000000000000a1".
Definition tea : ObjectId := "64c0000000000000000000a2".

Definition env (n : Z) (_id : ObjectId) : Env := mkEnv _id n "salt".

Definition alice_cart : Cart.t :=
  Cart.make "64d000000000000000000001" (id alice)
    [Line.make soap 2; Line.make tea 1].

Definition shop : Store :=
  mkStore [] [] [alice_cart] [] [].

Definition bob : User.t :=
  User.make "64b000000000000000000003" "Bob" "bob@soko.test"
    (Bcrypt.Digest "salt" "hunter2") (Val "poster").

Definition members : Store := mkStore [bob] [] [] [] [].

Definition banner (_id : ObjectId) (active : field bool) (order : Z)
  : Banner.t :=
  Banner.make _id "sale.png" Missing Missing Missing active order.

Definition gallery : Store :=
  mkStore [] [] [] []
    [banner "64f000000000000000000001" (Val true) 5;
     banner "64f000000000000000000002" (Val false) 0;
     banner "64f000000000000000000003" (Val true) 2;
     banner "64f000000000000000000004" Nul 1].

Definition product (_id : ObjectId) (name : string) (price : Z)
  : Product.t :=
  Product.make _id name price Missing Missing Missing 0 false (id admin).

Definition catalog : Store :=
  mkStore [] [product soap "Soap" 120; product tea "Tea" 80] [alice_cart]
    [] [].

(** A token service that signs by printing the user's id. *)
Definition sign : Z -> Identity -> string :=
  fun _ who => ("token." ++ id who)%string.

(** A token service that accepts one token. *)
Definition verify_one (token : string) (who : Identity)
  : Z -> string -> option Identity :=
  fun _ t => if (t =? token)%string then Some who else None.

End Sample.

(* ===================================================================== *)
(** ** Facts about the collection operations *)
(* ===================================================================== *)

Import Mongoose Server.
Local Open Scope list_scope.

Section CollectionFacts.
Context {A : Type} `{Document A}.

Lemma has_id_eq (i : ObjectId) (d : A) : has_id i d = true <-> doc_id d = i.
Proof. unfold has_id. apply String.eqb_eq. Qed.

Lemma update_ids (d : A) (c : list A) :
  map doc_id (update d c) = map doc_id c.
Proof.
  induction c as [|x c IH]; simpl; [reflexivity|].
  destruct (has_id (doc_id d) x) eqn:E; simpl.
  - apply has_id_eq in E. now rewrite E.
  - now rewrite IH.
Qed.

Lemma findOne_in (f : A -> bool) (c : list A) (x : A) :
  findOne f c = Some x -> In x c /\ f x = true.
Proof. apply find_some. Qed.

Lemma findOne_update (f : A -> bool) (d x : A) (c : list A) :
  NoDup (map doc_id c) ->
  findOne f c = Some x -> doc_id d = doc_id x -> f d = true ->
  findOne f (update d c) = Some d.
Proof.
  unfold findOne.
  induction c as [|y c IH]; simpl; intros Hnd Hx Hid Hd; [discriminate|].
  inversion Hnd as [|? ? Hy Hc]; subst.
  destruct (f y) eqn:Fy.
  - injection Hx as ->.
    assert (E : has_id (doc_id d) x = true) by now apply has_id_eq.
    rewrite E. simpl. now rewrite Hd.
  - destruct (has_id (doc_id d) y) eqn:E.
    + apply has_id_eq in E. exfalso. apply Hy.
      apply find_some in Hx. destruct Hx as [Hin _].
      rewrite E, Hid. now apply in_map.
    + simpl. rewrite Fy. now apply IH.
Qed.

Lemma update_same (f : A -> bool) (x : A) (c : list A) :
  NoDup (map doc_id c) -> findOne f c = Some x -> update x c = c.
Proof.
  unfold findOne.
  induction c as [|y c IH]; simpl; intros Hnd Hx; [reflexivity|].
  inversion Hnd as [|? ? Hy Hc]; subst.
  destruct (f y) eqn:Fy.
  - injection Hx as ->.
    assert (E : has_id (doc_id x) x = true) by now apply has_id_eq.
    now rewrite E.
  - destruct (has_id (doc_id x) y) eqn:E.
    + apply has_id_eq in E. exfalso. apply Hy.
      apply find_some in Hx. destruct Hx as [Hin _].
      rewrite E. now apply in_map.
    + f_equal. now apply IH.
Qed.

Lemma insert_fresh (d : A) (c : list A) :
  ~ In (doc_id d) (map doc_id c) -> insert d c = Some (c ++ [d]).
Proof.
  intros Hfresh. unfold insert.
  destruct (existsb (has_id (doc_id d)) c) eqn:E; [|reflexivity].
  apply existsb_exists in E. destruct E as [x [Hin Hx]].
  apply has_id_eq in Hx. exfalso. apply Hfresh.
  rewrite <- Hx. now apply in_map.
Qed.

Lemma insert_ids (d : A) (c c' : list A) :
  insert d c = Some c' ->
  c' = c ++ [d] /\ ~ In (doc_id d) (map doc_id c).
Proof.
  unfold insert.
  destruct (existsb (has_id (doc_id d)) c) eqn:E; [discriminate|].
  intros [= <-]. split; [reflexivity|].
  intros Hin. apply in_map_iff in Hin. destruct Hin as [x [Hx Hin]].
  assert (existsb (has_id (doc_id d)) c = true); [|congruence].
  apply existsb_exists. exists x. split; [assumption|]. now apply has_id_eq.
Qed.

Lemma findOne_none (f : A -> bool) (c : list A) :
  (forall x, In x c -> f x = false) -> findOne f c = None.
Proof.
  unfold findOne. induction c as [|y c IH]; simpl; intros Hc; [reflexivity|].
  rewrite (Hc y (or_introl eq_refl)). apply IH.
  intros x Hx. apply Hc. now right.
Qed.

Lemma findOne_app_none (f : A -> bool) (c : list A) (d : A) :
  findOne f c = None -> f d = true -> findOne f (c ++ [d]) = Some d.
Proof.
  unfold findOne. induction c as [|y c IH]; simpl; intros Hc Hd.
  - now rewrite Hd.
  - destruct (f y); [discriminate|]. now apply IH.
Qed.

End CollectionFacts.

Lemma set_carts_same (s : Store) : set_carts s (carts s) = s.
Proof. now destruct s. Qed.

Lemma copy_lines (ls : list Line.t) :
  map (fun p => Line.make (Line.product p) (Line.quantity p)) ls = ls.
Proof.
  induction ls as [|[p q] ls IH]; simpl; [reflexivity|]. now rewrite IH.
Qed.

Lemma filter_twice {A : Type} (f : A -> bool) (l : list A) :
  filter f (filter f l) = filter f l.
Proof.
  induction l as [|x l IH]; simpl; [reflexivity|].
  destruct (f x) eqn:E; simpl; [rewrite E; f_equal|]; exact IH.
Qed.

Lemma filter_all {A : Type} (f : A -> bool) (l : list A) :
  (forall x, In x l -> f x = true) -> filter f l = l.
Proof.
  induction l as [|x l IH]; simpl; intros Hall; [reflexivity|].
  rewrite (Hall x (or_introl eq_refl)). f_equal. apply IH.
  intros y Hy. apply Hall. now right.
Qed.

(* ===================================================================== *)
(** ** Orders *)
(* ===================================================================== *)

(** C1. POST /api/orders answers 400 (ValidationError, "Cart is empty") and
    leaves the store alone when the user has no cart or the cart has no
    line.  Otherwise, the driver having drawn an unused order [_id], it
    stores and returns (201) an order of that user whose items are the
    cart's lines as they were before the call, in order, and afterwards the
    user's cart is still there, under the same [_id], with no line. *)
Theorem post_orders_spec (s : Store) (e : Env) (user : Identity) :
  (findOne (owned_by user) (carts s) = None ->
   post_orders s e user
   = (s, json (status_of ValidationError) (Message "Cart is empty")))
  /\ (forall cart,
        findOne (owned_by user) (carts s) = Some cart ->
        Cart.products cart = [] ->
        post_orders s e user
        = (s, json (status_of ValidationError) (Message "Cart is empty")))
  /\ (forall cart,
        findOne (owned_by user) (carts s) = Some cart ->
        Cart.products cart <> [] ->
        unique_cart_ids s ->
        ~ In (fresh_id e) (map Order._id (orders s)) ->
        exists order cart' s',
          post_orders s e user = (s', json 201 (OrderBody order))
          /\ Order.items order = Cart.products cart
          /\ Order.user order = id user
          /\ orders s' = orders s ++ [order]
          /\ findOne (owned_by user) (carts s') = Some cart'
          /\ Cart._id cart' = Cart._id cart
          /\ Cart.products cart' = []).
Proof.
  unfold post_orders. repeat split.
  - now intros ->.
  - intros cart -> ->. reflexivity.
  - intros cart Hcart Hlines Hwf Hfresh. rewrite Hcart.
    destruct (Cart.products cart) as [|l ls] eqn:Els; [congruence|].
    cbn [List.length Nat.eqb]. rewrite <- Els.
    set (order := Order.make _ _ _ _).
    rewrite (insert_fresh order (orders s)) by exact Hfresh.
    set (cart' := Cart.make _ _ []).
    exists order, cart'. eexists. split; [reflexivity|].
    split; [apply copy_lines|]. split; [reflexivity|].
    split; [reflexivity|]. split; [|split; reflexivity].
    cbn [carts set_carts set_orders].
    apply findOne_update with (x := cart); try assumption; try reflexivity.
    apply findOne_in in Hcart. exact (proj2 Hcart).
Qed.

Lemma post_orders_spec_witness :
  let result := post_orders Sample.shop (Sample.env 7 "64e000000000000000000001")
                  Sample.alice in
  status (snd result) = 201
  /\ exists order cart',
       body (snd result) = OrderBody order
       /\ Order.items order = [Line.make Sample.soap 2; Line.make Sample.tea 1]
       /\ findOne (owned_by Sample.alice) (carts (fst result)) = Some cart'
       /\ Cart.products cart' = [].
Proof.
  destruct (post_orders_spec Sample.shop (Sample.env 7 "64e000000000000000000001")
              Sample.alice) as [_ [_ Hplaced]].
  destruct (Hplaced Sample.alice_cart) as (order & cart' & s' & Hrun & Hitems
                                           & _ & _ & Hfind & _ & Hempty).
  - reflexivity.
  - discriminate.
  - repeat constructor; simpl; intuition discriminate.
  - simpl. tauto.
  - cbv zeta. rewrite Hrun. split; [reflexivity|].
    exists order, cart'. repeat split; assumption.
Defined.

(* ===================================================================== *)
(** ** Removing a cart line *)
(* ===================================================================== *)

(** C9. DELETE /api/cart/:productId on a cart that has no line for the
    product answers with the cart as it was and leaves the store as it was;
    a second call with the same product gives the same store and the same
    answer as the first; and a user with no cart gets 404 (NotFound). *)
Theorem delete_cart_idempotent (s : Store) (user : Identity) (p : string) :
  unique_cart_ids s ->
  (forall cart,
     findOne (owned_by user) (carts s) = Some cart ->
     (forall l, In l (Cart.products cart) -> Line.product l <> p) ->
     delete_cart s user p = (s, ok (CartBody cart)))
  /\ delete_cart (fst (delete_cart s user p)) user p = delete_cart s user p
  /\ (findOne (owned_by user) (carts s) = None ->
      delete_cart s user p
      = (s, json (status_of NotFound) (Message "Cart not found"))).
Proof.
  intros Hwf. unfold delete_cart. repeat split.
  - intros cart Hcart Habsent. rewrite Hcart.
    rewrite filter_all.
    + replace (Cart.make (Cart._id cart) (Cart.user cart) (Cart.products cart))
        with cart by now destruct cart.
      rewrite (@update_same _ Cart_Document _ _ _ Hwf Hcart). now rewrite set_carts_same.
    + intros l Hl. apply negb_true_iff. apply String.eqb_neq. now apply Habsent.
  - destruct (findOne (owned_by user) (carts s)) as [cart|] eqn:Hcart.
    + set (cart' := Cart.make _ _ _). cbn [fst carts set_carts].
      assert (Hfound : findOne (owned_by user) (update cart' (carts s))
                       = Some cart').
      { apply findOne_update with (x := cart); try assumption; try reflexivity.
        apply findOne_in in Hcart. exact (proj2 Hcart). }
      rewrite Hfound. cbn [Cart._id Cart.user Cart.products cart'].
      rewrite filter_twice. fold cart'.
      assert (Hwf' : NoDup (map doc_id (update cart' (carts s)))).
      { rewrite update_ids. exact Hwf. }
      rewrite (@update_same _ Cart_Document _ _ _ Hwf' Hfound).
      reflexivity.
    + cbn [fst]. now rewrite Hcart.
  - now intros ->.
Qed.

Lemma delete_cart_idempotent_witness :
  unique_cart_ids Sample.shop
  /\ delete_cart Sample.shop Sample.alice "64c0000000000000000000ff"
     = (Sample.shop, ok (CartBody Sample.alice_cart))
  /\ delete_cart (fst (delete_cart Sample.shop Sample.alice Sample.soap))
       Sample.alice Sample.soap
     = delete_cart Sample.shop Sample.alice Sample.soap.
Proof.
  assert (Hwf : unique_cart_ids Sample.shop).
  { repeat constructor; simpl; tauto. }
  split; [exact Hwf|].
  destruct (delete_cart_idempotent Sample.shop Sample.alice
              "64c0000000000000000000ff" Hwf) as [Hnoop _].
  destruct (delete_cart_idempotent Sample.shop Sample.alice Sample.soap Hwf)
    as [_ [Htwice _]].
  split; [|exact Htwice].
  apply Hnoop; [reflexivity|].
  simpl. intros l [<-|[<-|[]]]; discriminate.
Defined.

(* ===================================================================== *)
(** ** Adding to the cart *)
(* ===================================================================== *)

Lemma is_ObjectId_cast (p : string) :
  is_ObjectId p = true -> castObjectId (Js.Str p) = Some (Val p).
Proof.
  unfold is_ObjectId, castObjectId. cbn [Js.to_string].
  intros Hp. apply andb_true_iff in Hp. destruct Hp as [Hhex Hlow].
  rewrite Hhex. apply String.eqb_eq in Hlow. now rewrite Hlow.
Qed.

Lemma is_ObjectId_truthy (p : string) :
  is_ObjectId p = true -> Js.not (Js.Str p) = false.
Proof.
  destruct p; [discriminate|reflexivity].
Qed.

Lemma new_Line_number (p : string) (q : Z) :
  is_ObjectId p = true ->
  new_Line (Js.Str p) (Js.Num (Js.Int q)) = Some (Line.make p q).
Proof.
  intros Hp. unfold new_Line. now rewrite (is_ObjectId_cast p Hp).
Qed.

Lemma add_quantity_number (q : Z) (l : Line.t) :
  add_quantity (Js.Num (Js.Int q)) l
  = Some (Line.make (Line.product l) (Line.quantity l + q)).
Proof. reflexivity. Qed.

Lemma findIndex_first (p : string) (before after : list Line.t) (l : Line.t) :
  Line.product l = p ->
  (forall x, In x before -> Line.product x <> p) ->
  Js.findIndex (line_of (Js.Str p)) (before ++ l :: after)
  = Some (List.length before).
Proof.
  intros Hl. induction before as [|x before IH]; simpl; intros Hbefore.
  - unfold line_of. cbn [Js.strict_eq]. rewrite Hl, String.eqb_refl. reflexivity.
  - unfold line_of at 1. cbn [Js.strict_eq].
    assert (Hx : (Line.product x =? p)%string = false).
    { apply String.eqb_neq. apply Hbefore. now left. }
    rewrite Hx, IH; [reflexivity|]. intros y Hy. apply Hbefore. now right.
Qed.

Lemma findIndex_none (p : string) (ls : list Line.t) :
  lines_for p ls = [] -> Js.findIndex (line_of (Js.Str p)) ls = None.
Proof.
  unfold lines_for. induction ls as [|x ls IH]; simpl; [reflexivity|].
  unfold line_of at 1. cbn [Js.strict_eq].
  destruct (Line.product x =? p)%string; [discriminate|].
  intros Hls. now rewrite IH.
Qed.

Lemma update_at_middle {A : Type} (change : A -> option A)
    (before after : list A) (x x' : A) :
  change x = Some x' ->
  update_at (List.length before) change (before ++ x :: after)
  = Some (before ++ x' :: after).
Proof.
  intros Hx. induction before as [|y before IH]; simpl.
  - now rewrite Hx.
  - now rewrite IH.
Qed.

Lemma post_cart_guard_number (s : Store) (e : Env) (user : Identity)
    (p : string) (q : Z) :
  is_ObjectId p = true -> 0 < q ->
  Js.not (Js.Str p) || Js.not (Js.Num (Js.Int q))
  || Js.le_num (Js.Num (Js.Int q)) 0 = false.
Proof.
  intros Hp Hq. rewrite (is_ObjectId_truthy p Hp).
  unfold Js.not, Js.le_num. cbn [Js.truthy Js.to_number].
  replace (q =? 0) with false by (symmetry; apply Z.eqb_neq; lia).
  replace (q <=? 0) with false by (symmetry; apply Z.leb_gt; lia).
  reflexivity.
Qed.

(** The line for the product is there: its quantity grows. *)
Lemma post_cart_existing_line (s : Store) (e : Env) (user : Identity)
    (p : string) (q : Z) (cart : Cart.t) (before after : list Line.t)
    (l : Line.t) :
  is_ObjectId p = true -> 0 < q -> unique_cart_ids s ->
  findOne (owned_by user) (carts s) = Some cart ->
  Cart.products cart = before ++ l :: after ->
  Line.product l = p ->
  (forall x, In x before -> Line.product x <> p) ->
  let cart' := Cart.make (Cart._id cart) (Cart.user cart)
                 (before ++ Line.make p (Line.quantity l + q) :: after) in
  post_cart s e user (Js.Str p) (Js.Num (Js.Int q))
  = (set_carts s (update cart' (carts s)), ok (CartBody cart'))
  /\ findOne (owned_by user) (update cart' (carts s)) = Some cart'.
Proof.
  intros Hp Hq Hwf Hcart Hlines Hl Hbefore cart'. split.
  - unfold post_cart. rewrite (post_cart_guard_number s e user p q Hp Hq).
    rewrite Hcart, Hlines, (findIndex_first p before after l Hl Hbefore).
    rewrite (update_at_middle _ before after l _ (add_quantity_number q l)).
    rewrite Hl. reflexivity.
  - apply findOne_update with (x := cart); try assumption; try reflexivity.
    apply findOne_in in Hcart. exact (proj2 Hcart).
Qed.

(** The cart has no line for the product: one is pushed. *)
Lemma post_cart_new_line (s : Store) (e : Env) (user : Identity)
    (p : string) (q : Z) (cart : Cart.t) :
  is_ObjectId p = true -> 0 < q -> unique_cart_ids s ->
  findOne (owned_by user) (carts s) = Some cart ->
  lines_for p (Cart.products cart) = [] ->
  let cart' := Cart.make (Cart._id cart) (Cart.user cart)
                 (Cart.products cart ++ [Line.make p q]) in
  post_cart s e user (Js.Str p) (Js.Num (Js.Int q))
  = (set_carts s (update cart' (carts s)), ok (CartBody cart'))
  /\ findOne (owned_by user) (update cart' (carts s)) = Some cart'.
Proof.
  intros Hp Hq Hwf Hcart Hnone cart'. split.
  - unfold post_cart. rewrite (post_cart_guard_number s e user p q Hp Hq).
    rewrite Hcart, (findIndex_none p _ Hnone), (new_Line_number p q Hp).
    reflexivity.
  - apply findOne_update with (x := cart); try assumption; try reflexivity.
    apply findOne_in in Hcart. exact (proj2 Hcart).
Qed.

(** The user has no cart: one is created with the single line. *)
Lemma post_cart_new_cart (s : Store) (e : Env) (user : Identity)
    (p : string) (q : Z) :
  is_ObjectId p = true -> 0 < q ->
  findOne (owned_by user) (carts s) = None ->
  ~ In (fresh_id e) (map Cart._id (carts s)) ->
  let cart := Cart.make (fresh_id e) (id user) [Line.make p q] in
  post_cart s e user (Js.Str p) (Js.Num (Js.Int q))
  = (set_carts s (carts s ++ [cart]), ok (CartBody cart))
  /\ findOne (owned_by user) (carts s ++ [cart]) = Some cart.
Proof.
  intros Hp Hq Hcart Hfresh cart. split.
  - unfold post_cart. rewrite (post_cart_guard_number s e user p q Hp Hq).
    rewrite Hcart, (new_Line_number p q Hp).
    fold cart. now rewrite (insert_fresh cart (carts s)).
  - apply findOne_app_none; [assumption|].
    unfold owned_by. apply String.eqb_refl.
Qed.

Lemma insert_unique {A : Type} `{Document A} (d : A) (c c' : list A) :
  NoDup (map doc_id c) -> insert d c = Some c' -> NoDup (map doc_id c').
Proof.
  intros Hc Hins. apply insert_ids in Hins. destruct Hins as [-> Hfresh].
  rewrite map_app. apply NoDup_app; [assumption|repeat constructor; simpl; tauto|].
  intros a Ha [<-|[]]. contradiction.
Qed.

(** The handlers that write carts keep the [_id]s apart. *)
Lemma post_cart_unique_ids (s : Store) (e : Env) (user : Identity)
    (productId quantity : Js.value) :
  unique_cart_ids s ->
  unique_cart_ids (fst (post_cart s e user productId quantity)).
Proof.
  intros Hwf. unfold post_cart.
  destruct (_ || _ || _); [exact Hwf|].
  destruct (findOne (owned_by user) (carts s)) as [cart|].
  - destruct (match Js.findIndex _ _ with Some _ => _ | None => _ end);
      [|exact Hwf].
    unfold unique_cart_ids. cbn [fst carts set_carts].
    rewrite (@update_ids _ Cart_Document). exact Hwf.
  - destruct (new_Line productId quantity); [|exact Hwf].
    destruct (insert _ (carts s)) as [cs|] eqn:Hins; [|exact Hwf].
    exact (insert_unique _ _ _ Hwf Hins).
Qed.

Lemma lines_for_none (p : string) (ls : list Line.t) :
  lines_for p ls = [] -> forall x, In x ls -> Line.product x <> p.
Proof.
  unfold lines_for. induction ls as [|y ls IH]; simpl; [tauto|].
  destruct (Line.product y =? p)%string eqn:E; [discriminate|].
  intros Hls x [<-|Hx]; [now apply String.eqb_neq|now apply IH].
Qed.

(** The merge on the requests it was written for.  POST /api/cart with a
    product id in its printed form and a positive whole number, for a user
    whose cart (if any) the store holds under a unique [_id]: when the cart
    has a line for the product, the first such line gets the amount added to
    its quantity and every other line stays as it is; when there is no line
    for the product (or no cart yet), the line (product, amount) is appended
    at the end; the answer is 200 with the resulting cart.  On a cart without
    a line for the product, adding 2 and then 3 leaves exactly one line for
    it, with quantity 5. *)
Theorem post_cart_merge (s : Store) (e e' : Env) (user : Identity)
    (p : ObjectId) (q : Z) :
  is_ObjectId p = true -> 0 < q -> unique_cart_ids s ->
  (findOne (owned_by user) (carts s) = None ->
   ~ In (fresh_id e) (map Cart._id (carts s))) ->
  let add (st : Store) (en : Env) (amount : Z) :=
    post_cart st en user (Js.Str p) (Js.Num (Js.Int amount)) in
  (exists cart',
     snd (add s e q) = ok (CartBody cart')
     /\ Cart.products cart' = cart_lines (fst (add s e q)) user)
  /\ (forall before l after,
        cart_lines s user = before ++ l :: after ->
        Line.product l = p ->
        (forall x, In x before -> Line.product x <> p) ->
        cart_lines (fst (add s e q)) user
        = before ++ Line.make p (Line.quantity l + q) :: after)
  /\ (lines_for p (cart_lines s user) = [] ->
      cart_lines (fst (add s e q)) user
      = cart_lines s user ++ [Line.make p q])
  /\ (lines_for p (cart_lines s user) = [] ->
      lines_for p (cart_lines (fst (add (fst (add s e 2)) e' 3)) user)
      = [Line.make p 5]).
Proof.
  intros Hp Hq Hwf Hfresh add.
  assert (Hnew : forall amount, 0 < amount ->
            lines_for p (cart_lines s user) = [] ->
            cart_lines (fst (add s e amount)) user
            = cart_lines s user ++ [Line.make p amount]).
  { intros amount Hamount Hnone. unfold add, cart_lines in *.
    destruct (findOne (owned_by user) (carts s)) as [cart|] eqn:Hcart.
    - destruct (post_cart_new_line s e user p amount cart Hp Hamount Hwf
                  Hcart Hnone) as [-> Hfound].
      cbn [fst carts set_carts]. now rewrite Hfound.
    - destruct (post_cart_new_cart s e user p amount Hp Hamount Hcart
                  (Hfresh eq_refl)) as [-> Hfound].
      cbn [fst carts set_carts]. now rewrite Hfound. }
  assert (Hold : forall st en amount before l after,
            0 < amount -> unique_cart_ids st ->
            cart_lines st user = before ++ l :: after ->
            Line.product l = p ->
            (forall x, In x before -> Line.product x <> p) ->
            cart_lines (fst (add st en amount)) user
            = before ++ Line.make p (Line.quantity l + amount) :: after).
  { intros st en amount before l after Hamount Hst Hlines Hl Hbefore.
    unfold add, cart_lines in *.
    destruct (findOne (owned_by user) (carts st)) as [cart|] eqn:Hcart;
      [|now destruct before].
    destruct (post_cart_existing_line st en user p amount cart before after l
                Hp Hamount Hst Hcart Hlines Hl Hbefore) as [-> Hfound].
    cbn [fst carts set_carts]. now rewrite Hfound. }
  split; [|split; [|split]].
  - unfold add, cart_lines.
    destruct (findOne (owned_by user) (carts s)) as [cart|] eqn:Hcart.
    + destruct (lines_for p (Cart.products cart)) as [|l0 ls0] eqn:Hfor.
      * destruct (post_cart_new_line s e user p q cart Hp Hq Hwf Hcart Hfor)
          as [-> Hfound].
        cbn [fst snd carts set_carts]. rewrite Hfound. eauto.
      * assert (Hsplit : exists before l after,
                  Cart.products cart = before ++ l :: after
                  /\ Line.product l = p
                  /\ forall x, In x before -> Line.product x <> p).
        { clear - Hfor. revert Hfor. unfold lines_for.
          induction (Cart.products cart) as [|y ls IH]; simpl; [discriminate|].
          destruct (Line.product y =? p)%string eqn:E.
          - intros _. exists [], y, ls. apply String.eqb_eq in E.
            simpl. tauto.
          - intros Hls. destruct (IH Hls) as (b & l & a & -> & Hl & Hb).
            exists (y :: b), l, a. split; [reflexivity|]. split; [exact Hl|].
            intros x [<-|Hx]; [now apply String.eqb_neq|now apply Hb]. }
        destruct Hsplit as (before & l & after & Hlines & Hl & Hbefore).
        destruct (post_cart_existing_line s e user p q cart before after l
                    Hp Hq Hwf Hcart Hlines Hl Hbefore) as [-> Hfound].
        cbn [fst snd carts set_carts]. rewrite Hfound. eauto.
    + destruct (post_cart_new_cart s e user p q Hp Hq Hcart (Hfresh eq_refl))
        as [-> Hfound].
      cbn [fst snd carts set_carts]. rewrite Hfound. eauto.
  - intros before l after. now apply Hold.
  - now apply Hnew.
  - intros Hnone.
    rewrite (Hold (fst (add s e 2)) e' 3 (cart_lines s user) (Line.make p 2) []).
    + unfold lines_for in *. rewrite filter_app, Hnone. simpl.
      now rewrite String.eqb_refl.
    + lia.
    + apply post_cart_unique_ids. exact Hwf.
    + apply Hnew; [lia|exact Hnone].
    + reflexivity.
    + now apply lines_for_none.
Qed.

Lemma post_cart_merge_witness :
  let add (st : Store) (n : Z) (amount : Z) :=
    post_cart st (Sample.env n "64d000000000000000000009") Sample.alice
      (Js.Str "64c0000000000000000000a3") (Js.Num (Js.Int amount)) in
  cart_lines (fst (add Sample.shop 1 4)) Sample.alice
  = [Line.make Sample.soap 2; Line.make Sample.tea 1;
     Line.make "64c0000000000000000000a3" 4]
  /\ lines_for "64c0000000000000000000a3"
       (cart_lines (fst (add (fst (add empty_store 1 2)) 2 3)) Sample.alice)
     = [Line.make "64c0000000000000000000a3" 5].
Proof.
  cbv zeta. split.
  - refine (proj1 (proj2 (proj2
      (post_cart_merge Sample.shop (Sample.env 1 "64d000000000000000000009")
         (Sample.env 2 "64d000000000000000000009") Sample.alice
         "64c0000000000000000000a3" 4 _ _ _ _))) _).
    + reflexivity.
    + lia.
    + repeat constructor; simpl; tauto.
    + discriminate.
    + reflexivity.
  - refine (proj2 (proj2 (proj2
      (post_cart_merge empty_store (Sample.env 1 "64d000000000000000000009")
         (Sample.env 2 "64d000000000000000000009") Sample.alice
         "64c0000000000000000000a3" 1 _ _ _ _))) _).
    + reflexivity.
    + lia.
    + constructor.
    + simpl. tauto.
    + reflexivity.
Defined.

(** C2, where the handler misses it.  The guard lets a quantity through
    that is a string, and the line is looked up by the text of the id:
    - on a line with quantity 2, the quantity "3" is answered 200 and leaves
      the quantity 23: [+=] appends the digits, where the claim has 5;
    - the same "3" for a product the cart does not hold is stored as 3: the
      push path takes the string as the number it writes;
    - the id of a product of the cart written in upper-case digits, with
      quantity 3, is answered 200 and leaves a second line for that product
      (the first untouched), where the claim has one line. *)
Lemma post_cart_merge_misses :
  let e := Sample.env 1 "64d000000000000000000009" in
  post_cart Sample.shop e Sample.alice (Js.Str Sample.soap) (Js.Str "3")
  = (let cart := Cart.make (Cart._id Sample.alice_cart) (id Sample.alice)
                   [Line.make Sample.soap 23; Line.make Sample.tea 1] in
     (set_carts Sample.shop [cart], ok (CartBody cart)))
  /\ cart_lines
       (fst (post_cart empty_store e Sample.alice (Js.Str Sample.soap)
               (Js.Str "3"))) Sample.alice
     = [Line.make Sample.soap 3]
  /\ post_cart Sample.shop e Sample.alice (Js.Str "64C0000000000000000000A1")
       (Js.Num (Js.Int 3))
     = (let cart := Cart.make (Cart._id Sample.alice_cart) (id Sample.alice)
                      [Line.make Sample.soap 2; Line.make Sample.tea 1;
                       Line.make Sample.soap 3] in
        (set_carts Sample.shop [cart], ok (CartBody cart))).
Proof. cbv zeta. repeat split. Qed.





(* ===================================================================== *)
(** ** Login *)
(* ===================================================================== *)

(** C5, as the handler has it.  POST /api/login for an email that no stored
    user has answers 400: with the message "User not found" when both fields
    are given, and with "Email and password required" otherwise.  (The
    handler writes 400 there, not the 404 that NotFound stands for.) *)
Theorem post_login_unknown_email (jwt_sign : Z -> Identity -> string)
    (s : Store) (e : Env) (email password : Js.value) :
  (forall u, In u (users s) -> User.email u <> Js.to_string email) ->
  status (post_login jwt_sign s e email password) = 400
  /\ (Js.truthy email = true -> Js.truthy password = true ->
      post_login jwt_sign s e email password
      = json 400 (Message "User not found")).
Proof.
  intros Hunknown.
  assert (Hfind : findOne (fun u => (User.email u =? Js.to_string email)%string)
                    (users s) = None).
  { apply findOne_none. intros u Hu.
    apply String.eqb_neq. now apply Hunknown. }
  unfold post_login, Js.not.
  destruct (Js.truthy email) eqn:Hemail; [|split; [reflexivity|discriminate]].
  destruct (Js.truthy password) eqn:Hpassword;
    [|split; [reflexivity|discriminate]].
  cbn [negb orb].
  assert (Hcast : castString email = Some (Val (Js.to_string email))).
  { destruct email; try reflexivity; discriminate. }
  rewrite Hcast, Hfind. split; reflexivity.
Qed.

Lemma post_login_unknown_email_witness :
  post_login Sample.sign Sample.members (Sample.env 1 "")
    (Js.Str "eve@soko.test") (Js.Str "hunter2")
  = json 400 (Message "User not found").
Proof.
  apply (post_login_unknown_email Sample.sign Sample.members (Sample.env 1 "")
           (Js.Str "eve@soko.test") (Js.Str "hunter2")); try reflexivity.
  simpl. intros u [<-|[]]. discriminate.
Defined.

(** C5 as stated fails: the login of an unknown email is answered with 400,
    which is not the status of NotFound. *)
Lemma post_login_unknown_email_not_404 :
  status (post_login Sample.sign empty_store (Sample.env 1 "")
            (Js.Str "eve@soko.test") (Js.Str "hunter2")) = 400
  /\ status (post_login Sample.sign empty_store (Sample.env 1 "")
               (Js.Str "eve@soko.test") (Js.Str "hunter2"))
     <> status_of NotFound.
Proof. split; [reflexivity|discriminate]. Qed.

(* ===================================================================== *)
(** ** Featured products *)
(* ===================================================================== *)

Lemma In_limit {A : Type} (n : nat) (l : list A) (x : A) :
  In x (limit n l) -> In x l.
Proof.
  unfold limit. revert l. induction n as [|n IH]; intros [|y l]; simpl; try tauto.
  intros [->|Hx]; [now left|right; now apply IH].
Qed.

(** C6. GET /api/products/featured answers 200 with at most 8 products, each
    of them a stored product whose [featured] is true. *)
Theorem get_products_featured_spec (s : Store) :
  exists l,
    get_products_featured s = ok (FeaturedList l)
    /\ (List.length l <= 8)%nat
    /\ forall p, In p l -> Product.featured p = true /\ In p (products s).
Proof.
  unfold get_products_featured. eexists. split; [reflexivity|]. split.
  - apply firstn_le_length.
  - intros p Hp. apply In_limit in Hp. unfold find in Hp.
    apply filter_In in Hp. tauto.
Qed.

(* ===================================================================== *)
(** ** The active banner *)
(* ===================================================================== *)

Section SortFacts.
Context {A : Type} (key : A -> Z).

Lemma sort_insert_In (d x : A) (c : list A) :
  In x (sort_insert key d c) <-> x = d \/ In x c.
Proof.
  induction c as [|y c IH]; simpl; [intuition|].
  destruct (key d <=? key y); simpl; [intuition|].
  rewrite IH. intuition.
Qed.

Lemma sort_In (x : A) (c : list A) : In x (sort key c) <-> In x c.
Proof.
  induction c as [|y c IH]; simpl; [tauto|].
  rewrite sort_insert_In, IH. intuition.
Qed.

Lemma sort_insert_least_first (d : A) (c : list A) :
  least_first key c -> least_first key (sort_insert key d c).
Proof.
  destruct c as [|b c]; simpl.
  - intros _ x [<-|[]]. lia.
  - intros Hb. destruct (key d <=? key b) eqn:E.
    + apply Z.leb_le in E. intros x [<-|Hx]; [lia|].
      specialize (Hb x Hx). lia.
    + apply Z.leb_gt in E. intros x [<-|Hx]; [lia|].
      apply sort_insert_In in Hx. destruct Hx as [->|Hx]; [lia|].
      apply Hb. now right.
Qed.

Lemma sort_least_first (c : list A) : least_first key (sort key c).
Proof.
  induction c as [|y c IH]; simpl; [exact I|].
  now apply sort_insert_least_first.
Qed.

End SortFacts.

Lemma is_active_true (b : Banner.t) :
  is_active b = true <-> Banner.active b = Val true.
Proof.
  unfold is_active. destruct (Banner.active b) as [| |[|]]; split;
    congruence.
Qed.

(** C7. GET /api/banner answers 404 (NotFound) when no stored banner has
    [active] true; otherwise it answers 200 with a stored banner whose
    [active] is true and whose [order] is at most the [order] of every
    stored banner whose [active] is true. *)
Theorem get_banner_spec (s : Store) :
  ((forall b, In b (banners s) -> Banner.active b <> Val true) ->
   get_banner s
   = json (status_of NotFound) (Message "No active banner found"))
  /\ ((exists b, In b (banners s) /\ Banner.active b = Val true) ->
      exists banner,
        get_banner s = ok (BannerBody banner)
        /\ In banner (banners s)
        /\ Banner.active banner = Val true
        /\ forall b, In b (banners s) -> Banner.active b = Val true ->
                     Banner.order banner <= Banner.order b).
Proof.
  unfold get_banner, findOne_sorted, find. split.
  - intros Hnone.
    replace (filter is_active (banners s)) with (@nil Banner.t); [reflexivity|].
    symmetry. induction (banners s) as [|b bs IH]; simpl; [reflexivity|].
    destruct (is_active b) eqn:E.
    + apply is_active_true in E. exfalso. apply (Hnone b); [now left|exact E].
    + apply IH. intros b' Hb'. apply Hnone. now right.
  - intros [b0 [Hin0 Hactive0]].
    pose proof (sort_least_first Banner.order (filter is_active (banners s)))
      as Hleast.
    pose proof (sort_In Banner.order) as Hsame.
    destruct (sort Banner.order (filter is_active (banners s)))
      as [|banner rest] eqn:Hsorted.
    + assert (Hb0 : In b0 (sort Banner.order (filter is_active (banners s)))).
      { apply Hsame. apply filter_In.
        split; [assumption|now apply is_active_true]. }
      rewrite Hsorted in Hb0. destruct Hb0.
    + exists banner. split; [reflexivity|].
      assert (Hbanner : In banner (filter is_active (banners s))).
      { apply Hsame. rewrite Hsorted. now left. }
      apply filter_In in Hbanner. destruct Hbanner as [Hin Hactive].
      split; [assumption|]. split; [now apply is_active_true|].
      intros b Hb Hbactive. apply Hleast. rewrite <- Hsorted.
      apply Hsame. apply filter_In. split; [assumption|].
      now apply is_active_true.
Qed.

Lemma get_banner_spec_witness :
  exists banner,
    get_banner Sample.gallery = ok (BannerBody banner)
    /\ Banner.active banner = Val true
    /\ Banner.order banner <= 2.
Proof.
  destruct (proj2 (get_banner_spec Sample.gallery))
    as (banner & Hget & _ & Hactive & Hleast).
  - exists (Sample.banner "64f000000000000000000003" (Val true) 2).
    split; [simpl; tauto|reflexivity].
  - exists banner. split; [exact Hget|]. split; [exact Hactive|].
    apply (Hleast (Sample.banner "64f000000000000000000003" (Val true) 2));
      [simpl; tauto|reflexivity].
Defined.

(* ===================================================================== *)
(** ** The auth middleware *)
(* ===================================================================== *)

Lemma split_pieces (sep : ascii) (s : string) : Js.split sep s <> [].
Proof.
  destruct s as [|c s]; simpl; [discriminate|].
  destruct (Ascii.eqb c sep); [discriminate|].
  destruct (Js.split sep s); discriminate.
Qed.

(** A word without the separator, then the separator, then the rest. *)
Lemma split_word (sep : ascii) (word rest : string) :
  Js.split sep word = [word] ->
  Js.split sep (word ++ String sep rest)%string = word :: Js.split sep rest.
Proof.
  induction word as [|c word IH]; simpl.
  - intros _. now rewrite Ascii.eqb_refl.
  - destruct (Ascii.eqb c sep); [discriminate|].
    pose proof (split_pieces sep word) as Hpieces.
    destruct (Js.split sep word) as [|piece pieces]; [contradiction|].
    intros [= -> ->]. now rewrite IH.
Qed.

Lemma bearer_header (token : string) :
  ("Bearer " ++ token = "Bearer" ++ " " ++ token)%string.
Proof. reflexivity. Qed.

Lemma index_split_word (word rest : string) :
  Js.split " " word = [word] ->
  Js.index (Js.split " " (word ++ " " ++ rest)%string) 1
  = Js.index (Js.split " " rest) 0.
Proof.
  intros Hword. change (word ++ " " ++ rest)%string
    with (word ++ String " " rest)%string.
  rewrite (split_word " " word rest Hword). unfold Js.index. simpl.
  reflexivity.
Qed.

(** C10. The [auth] middleware reads the second piece of the Authorization
    header split at spaces and never looks at the first.  So a header made
    of any first word (one without a space), a space and a token is treated
    exactly as "Bearer", a space and that token; when the token is a
    non-empty string without a space that verifies, both attach the decoded
    identity.  A header that is such a token alone, with no word and space
    before it, is refused with 401 "No token provided". *)
Theorem auth_ignores_scheme (jwt_verify : Z -> string -> option Identity)
    (e : Env) (word token : string) :
  Js.split " " word = [word] ->
  auth jwt_verify e (Some (word ++ " " ++ token)%string)
  = auth jwt_verify e (Some ("Bearer " ++ token)%string)
  /\ (forall decoded,
        Js.split " " token = [token] -> token <> ""%string ->
        jwt_verify (now e) token = Some decoded ->
        auth jwt_verify e (Some (word ++ " " ++ token)%string) = inl decoded
        /\ auth jwt_verify e (Some ("Bearer " ++ token)%string) = inl decoded
        /\ auth jwt_verify e (Some token)
           = inr (json (status_of Unauthenticated)
                    (Message "No token provided"))).
Proof.
  intros Hword.
  assert (Hsame : auth jwt_verify e (Some (word ++ " " ++ token)%string)
                  = auth jwt_verify e (Some ("Bearer " ++ token)%string)).
  { unfold auth. rewrite bearer_header.
    rewrite (index_split_word word token Hword).
    now rewrite (index_split_word "Bearer" token eq_refl). }
  split; [exact Hsame|].
  intros decoded Htoken Hnonempty Hverify.
  assert (Hbearer : auth jwt_verify e (Some ("Bearer " ++ token)%string)
                    = inl decoded).
  { unfold auth.
    rewrite bearer_header, (index_split_word "Bearer" token eq_refl), Htoken.
    unfold Js.index, Js.not. cbn [nth_error Js.truthy Js.to_string].
    destruct token as [|c token]; [congruence|]. cbn [String.eqb negb].
    now rewrite Hverify. }
  split; [now rewrite Hsame|]. split; [exact Hbearer|].
  unfold auth. now rewrite Htoken.
Qed.

Lemma auth_ignores_scheme_witness :
  let verify := Sample.verify_one "abc.def.ghi" Sample.admin in
  let e := Sample.env 1 "" in
  auth verify e (Some "Basic abc.def.ghi") = inl Sample.admin
  /\ auth verify e (Some "Bearer abc.def.ghi") = inl Sample.admin
  /\ auth verify e (Some "abc.def.ghi")
     = inr (json 401 (Message "No token provided")).
Proof.
  cbv zeta.
  apply (proj2 (auth_ignores_scheme (Sample.verify_one "abc.def.ghi" Sample.admin)
                  (Sample.env 1 "") "Basic" "abc.def.ghi" eq_refl));
    [reflexivity|discriminate|reflexivity].
Defined.

(* ===================================================================== *)
(** ** The role gate *)
(* ===================================================================== *)

Lemma strict_eq_string (x : string) (v : Js.value) :
  Js.strict_eq (Js.Str x) v = true <-> v = Js.Str x.
Proof.
  destruct v; simpl; try (split; [discriminate|congruence]).
  rewrite String.eqb_eq. split; congruence.
Qed.

Lemma not_authorized_iff (user : Identity) :
  not_authorized user = false
  <-> role user = Js.Str "admin" \/ role user = Js.Str "poster".
Proof.
  unfold not_authorized, Js.includes. cbn [existsb].
  rewrite negb_false_iff, orb_false_r, orb_true_iff, !strict_eq_string.
  tauto.
Qed.

Lemma not_authorized_other (user : Identity) :
  role user <> Js.Str "admin" -> role user <> Js.Str "poster" ->
  not_authorized user = true.
Proof.
  intros Hadmin Hposter. destruct (not_authorized user) eqn:E; [reflexivity|].
  apply not_authorized_iff in E. tauto.
Qed.

Lemma castString_total (v : Js.value) : exists f, castString v = Some f.
Proof. destruct v; eexists; reflexivity. Qed.

Lemma required_string_nonempty (x : string) :
  x <> ""%string -> required_string (castString (Js.Str x)) = Some x.
Proof.
  intros Hx. simpl. apply String.eqb_neq in Hx. now rewrite Hx.
Qed.

(** A number, or nothing, where the handler writes [value || 0]. *)
Lemma castNumber_or_zero (v : Js.value) :
  v = Js.Undefined \/ (exists z, v = Js.Num (Js.Int z)) ->
  exists z, required (with_default 0 (castNumber (Js.or v (Js.Num (Js.Int 0)))))
            = Some z.
Proof.
  intros [->|[z ->]]; [now exists 0|].
  unfold Js.or. cbn [Js.truthy].
  destruct (z =? 0); [now exists 0|now exists z].
Qed.

Lemma findByIdAndUpdate_found {A : Type} `{Document A} (change : A -> A)
    (c : list A) (x : A) :
  In x c ->
  exists y c', findByIdAndUpdate (doc_id x) change c = Some (change y, c')
               /\ doc_id y = doc_id x.
Proof.
  induction c as [|z c IH]; simpl; [tauto|]. intros Hx.
  destruct (has_id (doc_id x) z) eqn:E.
  - exists z. eexists. split; [reflexivity|]. now apply has_id_eq.
  - destruct Hx as [->|Hx].
    + assert (has_id (doc_id x) x = true) by now apply has_id_eq. congruence.
    + destruct (IH Hx) as (y & c' & -> & Hy). eauto.
Qed.

Lemma findByIdAndDelete_found {A : Type} `{Document A} (c : list A) (x : A) :
  In x c -> exists y c', findByIdAndDelete (doc_id x) c = Some (y, c').
Proof.
  induction c as [|z c IH]; simpl; [tauto|]. intros Hx.
  destruct (has_id (doc_id x) z) eqn:E; [eauto|].
  destruct Hx as [->|Hx].
  - assert (has_id (doc_id x) x = true) by now apply has_id_eq. congruence.
  - destruct (IH Hx) as (y & c' & ->). eauto.
Qed.

Lemma findByIdAndUpdate_first {A : Type} `{Document A} (change : A -> A)
    (c : list A) (x0 : A) :
  In x0 c ->
  exists before x after,
    c = before ++ x :: after
    /\ doc_id x = doc_id x0
    /\ (forall y, In y before -> doc_id y <> doc_id x0)
    /\ findByIdAndUpdate (doc_id x0) change c
       = Some (change x, before ++ change x :: after).
Proof.
  induction c as [|z c IH]; simpl; [tauto|]. intros Hx.
  destruct (has_id (doc_id x0) z) eqn:E.
  - exists [], z, c. apply has_id_eq in E.
    split; [reflexivity|]. split; [exact E|]. split; [intros y []|reflexivity].
  - assert (Hin : In x0 c).
    { destruct Hx as [->|Hx]; [|exact Hx].
      assert (has_id (doc_id x0) x0 = true) by now apply has_id_eq.
      congruence. }
    destruct (IH Hin) as (before & x & after & -> & Hid & Hbefore & ->).
    exists (z :: before), x, after.
    split; [reflexivity|]. split; [exact Hid|]. split; [|reflexivity].
    intros y [<-|Hy]; [|now apply Hbefore].
    intros Hz. apply has_id_eq in Hz. congruence.
Qed.

Lemma findByIdAndDelete_first {A : Type} `{Document A} (c : list A) (x0 : A) :
  In x0 c ->
  exists before x after,
    c = before ++ x :: after
    /\ doc_id x = doc_id x0
    /\ (forall y, In y before -> doc_id y <> doc_id x0)
    /\ findByIdAndDelete (doc_id x0) c = Some (x, before ++ after).
Proof.
  induction c as [|z c IH]; simpl; [tauto|]. intros Hx.
  destruct (has_id (doc_id x0) z) eqn:E.
  - exists [], z, c. apply has_id_eq in E.
    split; [reflexivity|]. split; [exact E|]. split; [intros y []|reflexivity].
  - assert (Hin : In x0 c).
    { destruct Hx as [->|Hx]; [|exact Hx].
      assert (has_id (doc_id x0) x0 = true) by now apply has_id_eq.
      congruence. }
    destruct (IH Hin) as (before & x & after & -> & Hid & Hbefore & ->).
    exists (z :: before), x, after.
    split; [reflexivity|]. split; [exact Hid|]. split; [|reflexivity].
    intros y [<-|Hy]; [|now apply Hbefore].
    intros Hz. apply has_id_eq in Hz. congruence.
Qed.

(** The value stored where the handler writes [value || 0]. *)
Lemma castNumber_or_zero_value (v : Js.value) :
  v = Js.Undefined \/ (exists z, v = Js.Num (Js.Int z)) ->
  exists stored,
    required (with_default 0 (castNumber (Js.or v (Js.Num (Js.Int 0)))))
    = Some stored
    /\ (v = Js.Undefined -> stored = 0)
    /\ (forall z, v = Js.Num (Js.Int z) -> stored = z).
Proof.
  intros [->|[z ->]].
  - exists 0. split; [reflexivity|]. split; [reflexivity|discriminate].
  - unfold Js.or. cbn [Js.truthy]. destruct (z =? 0) eqn:E.
    + apply Z.eqb_eq in E. subst z. exists 0.
      split; [reflexivity|]. split; [discriminate|]. now intros z [= <-].
    + exists z. split; [reflexivity|]. split; [discriminate|].
      now intros z' [= <-].
Qed.

(** C8. The four role-gated handlers (product creation, featured toggle,
    product deletion, banner creation), run for an authenticated caller.
    When the caller's role is neither "admin" nor "poster" each answers 403
    (Forbidden) and returns the store as it was, whatever the input.  When
    the role is "admin" or "poster" each succeeds on valid input, and what
    it writes is this:
    - creation (a non-empty name, a numeric price, a discount that is a
      number or left out, an unused [_id]) answers 201 with the product and
      appends it to the products, with the fields of the request, the
      discount 0 when left out, [featured] coerced and the caller as
      [createdBy];
    - the toggle (a boolean, the [_id] of a stored product) answers 200 with
      the changed product and sets [featured] of the first product with that
      [_id], every other product staying in place;
    - deletion (the [_id] of a stored product) answers 200 and takes out the
      first product with that [_id] and no other;
    - banner creation (a non-empty image, [active] a boolean or left out,
      [order] a number or left out, an unused [_id]) answers 201 with the
      banner and appends it, [active] defaulting to true and [order] to 0.
    No other collection changes. *)
Theorem role_gate (s : Store) (e : Env) (user : Identity) :
  (role user <> Js.Str "admin" -> role user <> Js.Str "poster" ->
   let refused := (s, json (status_of Forbidden) (Message "Not authorized")) in
   (forall name price description image category discount featured,
      post_products s e user name price description image category discount
        featured = refused)
   /\ (forall id featured, put_products_featured s user id featured = refused)
   /\ (forall id, delete_products s user id = refused)
   /\ (forall image title subtitle link active order,
         post_banner s e user image title subtitle link active order
         = refused))
  /\ (role user = Js.Str "admin" \/ role user = Js.Str "poster" ->
      (forall name price description image category discount featured,
         name <> ""%string ->
         discount = Js.Undefined \/ (exists d, discount = Js.Num (Js.Int d)) ->
         ~ In (fresh_id e) (map Product._id (products s)) ->
         exists product,
           post_products s e user (Js.Str name) (Js.Num (Js.Int price))
             description image category discount featured
           = (set_products s (products s ++ [product]),
              json 201 (ProductBody product))
           /\ Product.name product = name
           /\ Product.price product = price
           /\ Product.createdBy product = id user
           /\ Product._id product = fresh_id e
           /\ castString description = Some (Product.description product)
           /\ castString image = Some (Product.image product)
           /\ castString category = Some (Product.category product)
           /\ (discount = Js.Undefined -> Product.discount product = 0)
           /\ (forall d, discount = Js.Num (Js.Int d) ->
                         Product.discount product = d)
           /\ Product.featured product
              = (Js.strict_eq featured (Js.Bool true)
                 || Js.strict_eq featured (Js.Str "true")
                 || Js.strict_eq featured (Js.Num (Js.Int 1))
                 || Js.strict_eq featured (Js.Str "1")))
      /\ (forall product b,
            In product (products s) ->
            is_ObjectId (Product._id product) = true ->
            exists before x after,
              products s = before ++ x :: after
              /\ Product._id x = Product._id product
              /\ (forall y, In y before ->
                            Product._id y <> Product._id product)
              /\ put_products_featured s user (Product._id product) (Js.Bool b)
                 = (set_products s (before ++ set_featured b x :: after),
                    ok (ProductBody (set_featured b x)))
              /\ Product.featured (set_featured b x) = b
              /\ Product._id (set_featured b x) = Product._id product)
      /\ (forall product,
            In product (products s) ->
            is_ObjectId (Product._id product) = true ->
            exists before x after,
              products s = before ++ x :: after
              /\ Product._id x = Product._id product
              /\ (forall y, In y before ->
                            Product._id y <> Product._id product)
              /\ delete_products s user (Product._id product)
                 = (set_products s (before ++ after),
                    ok (Message "Product deleted successfully")))
      /\ (forall image title subtitle link active order,
            image <> ""%string ->
            active = Js.Undefined \/ (exists b, active = Js.Bool b) ->
            order = Js.Undefined \/ (exists z, order = Js.Num (Js.Int z)) ->
            ~ In (fresh_id e) (map Banner._id (banners s)) ->
            exists banner,
              post_banner s e user (Js.Str image) title subtitle link active
                order
              = (set_banners s (banners s ++ [banner]),
                 json 201 (BannerBody banner))
              /\ Banner.image banner = image
              /\ Banner._id banner = fresh_id e
              /\ castString title = Some (Banner.title banner)
              /\ castString subtitle = Some (Banner.subtitle banner)
              /\ castString link = Some (Banner.link banner)
              /\ (active = Js.Undefined -> Banner.active banner = Val true)
              /\ (forall b, active = Js.Bool b ->
                            Banner.active banner = Val b)
              /\ (order = Js.Undefined -> Banner.order banner = 0)
              /\ (forall z, order = Js.Num (Js.Int z) ->
                            Banner.order banner = z))).
Proof.
  split.
  - intros Hadmin Hposter refused.
    pose proof (not_authorized_other user Hadmin Hposter) as Hgate.
    unfold post_products, put_products_featured, delete_products, post_banner.
    rewrite Hgate. repeat split.
  - intros Hrole. apply not_authorized_iff in Hrole.
    unfold post_products, put_products_featured, delete_products, post_banner.
    rewrite Hrole. split; [|split; [|split]].
    + intros name price description image category discount featured
        Hname Hdiscount Hfresh.
      assert (Hguard : Js.not (Js.Str name) || Js.is_undefined (Js.Num (Js.Int price))
                       = false).
      { unfold Js.not. cbn [Js.truthy Js.is_undefined].
        apply String.eqb_neq in Hname. now rewrite Hname. }
      rewrite Hguard. unfold new_Product.
      rewrite (required_string_nonempty name Hname).
      destruct (castString_total description) as [d ->].
      destruct (castString_total image) as [i ->].
      destruct (castString_total category) as [c ->].
      destruct (castNumber_or_zero_value discount Hdiscount)
        as (disc & -> & Hleft & Hgiven).
      cbn [castNumber Js.to_number required].
      set (product := Product.make _ _ _ _ _ _ _ _ _).
      rewrite (insert_fresh product (products s)) by exact Hfresh.
      exists product. repeat split; assumption.
    + intros product b Hin Hid.
      rewrite (is_ObjectId_cast _ Hid).
      destruct (findByIdAndUpdate_first (set_featured b) (products s)
                  product Hin) as (before & x & after & Hproducts & Hx & Hbefore
                                   & Hfound).
      change (doc_id product) with (Product._id product) in *.
      change (doc_id x) with (Product._id x) in Hx.
      rewrite Hfound. exists before, x, after.
      repeat split; try assumption.
    + intros product Hin Hid.
      rewrite (is_ObjectId_cast _ Hid).
      destruct (findByIdAndDelete_first (products s) product Hin)
        as (before & x & after & Hproducts & Hx & Hbefore & Hfound).
      change (doc_id product) with (Product._id product) in *.
      change (doc_id x) with (Product._id x) in Hx.
      rewrite Hfound. exists before, x, after.
      repeat split; try assumption.
    + intros image title subtitle link active order Himage Hactive Horder
        Hfresh.
      assert (Hguard : Js.not (Js.Str image) = false).
      { unfold Js.not. cbn [Js.truthy].
        apply String.eqb_neq in Himage. now rewrite Himage. }
      rewrite Hguard. unfold new_Banner.
      rewrite (required_string_nonempty image Himage).
      destruct (castString_total title) as [t ->].
      destruct (castString_total subtitle) as [st ->].
      destruct (castString_total link) as [l ->].
      destruct (castNumber_or_zero_value order Horder)
        as (o & -> & Hleft & Hgiven).
      assert (Hcast : exists a,
                with_default true
                  (castBoolean (if Js.is_undefined active then Js.Bool true
                                else active)) = Some a
                /\ (active = Js.Undefined -> a = Val true)
                /\ (forall b, active = Js.Bool b -> a = Val b)).
      { destruct Hactive as [->|[b ->]]; eexists;
          (split; [reflexivity|]); split; try discriminate; try reflexivity.
        now intros b' [= <-]. }
      destruct Hcast as (a & -> & Hdefault & Hbool).
      set (banner := Banner.make _ _ _ _ _ _ _).
      rewrite (insert_fresh banner (banners s)) by exact Hfresh.
      exists banner. repeat split; assumption.
Qed.

Lemma role_gate_witness :
  let e := Sample.env 1 "64c0000000000000000000b1" in
  (forall id featured,
     put_products_featured Sample.catalog Sample.alice id featured
     = (Sample.catalog, json 403 (Message "Not authorized")))
  /\ (exists product,
        post_products Sample.shop e Sample.admin (Js.Str "Soap")
          (Js.Num (Js.Int 120)) Js.Undefined Js.Undefined Js.Undefined
          Js.Undefined (Js.Str "true")
        = (set_products Sample.shop [product], json 201 (ProductBody product))
        /\ Product.name product = "Soap"%string
        /\ Product.price product = 120
        /\ Product.createdBy product = id Sample.admin)
  /\ (exists before x after,
        products Sample.catalog = before ++ x :: after
        /\ Product._id x = Sample.tea
        /\ delete_products Sample.catalog Sample.admin Sample.tea
           = (set_products Sample.catalog (before ++ after),
              ok (Message "Product deleted successfully"))).
Proof.
  cbv zeta.
  pose proof (role_gate Sample.catalog (Sample.env 1 "64c0000000000000000000b1")
                Sample.alice) as [Hbuyer _].
  pose proof (role_gate Sample.shop (Sample.env 1 "64c0000000000000000000b1")
                Sample.admin) as [_ Hadmin].
  pose proof (role_gate Sample.catalog (Sample.env 1 "64c0000000000000000000b1")
                Sample.admin) as [_ Hcatalog].
  split; [|split].
  - apply Hbuyer; discriminate.
  - destruct (proj1 (Hadmin (or_introl eq_refl)) "Soap"%string 120
                Js.Undefined Js.Undefined Js.Undefined Js.Undefined
                (Js.Str "true")) as (product & Hrun & Hname & Hprice & Hby & _).
    + discriminate.
    + now left.
    + simpl. tauto.
    + exists product. repeat split; assumption.
  - destruct (proj1 (proj2 (proj2 (Hcatalog (or_introl eq_refl))))
                (Sample.product Sample.tea "Tea" 80))
      as (before & x & after & Hproducts & Hx & _ & Hrun).
    + simpl. tauto.
    + reflexivity.
    + exists before, x, after. repeat split; assumption.
Defined.

(* ===================================================================== *)
(** ** Registration and the stored roles *)
(* ===================================================================== *)

(** Case analysis on the scrutinee of the outermost conditional of a goal. *)
Ltac split_cases :=
  cbv zeta;
  repeat match goal with
         | |- context [if ?b then _ else _] => destruct b
         | |- context [match ?x with _ => _ end] => destruct x
         end.

Lemma new_User_role (_id : ObjectId) (name email : Js.value)
    (hashed : Bcrypt.digest) (role : Js.value) (user : User.t) :
  new_User _id name email hashed role = Some user ->
  with_default "buyer" (castString role) = Some (User.role user).
Proof.
  unfold new_User.
  destruct (required_string (castString name)); [|discriminate].
  destruct (required_string (castString email)); [|discriminate].
  destruct (with_default "buyer" (castString role)); [|discriminate].
  now intros [= <-].
Qed.

(** What POST /api/register does to the users: nothing, with an answer
    other than 201, or one user appended, with the answer 201. *)
Lemma post_register_users (s : Store) (e : Env)
    (name email password role : Js.value) :
  (fst (post_register s e name email password role) = s
   /\ status (snd (post_register s e name email password role)) = 400)
  \/ (exists user,
        post_register s e name email password role
        = (set_users s (users s ++ [user]),
           json 201 (Message "User registered successfully!"))
        /\ with_default "buyer" (castString role) = Some (User.role user)).
Proof.
  unfold post_register.
  destruct (Js.not name || Js.not email || Js.not password); [now left|].
  destruct (castString email) as [[| |address]|]; try now left.
  destruct (findOne _ (users s)); [now left|].
  destruct (Bcrypt.hash (salt e) password) as [hashed|]; [|now left].
  destruct (new_User (fresh_id e) name email hashed role) as [user|] eqn:Hnew;
    [|now left].
  destruct (insert user (users s)) as [us|] eqn:Hins; [|now left].
  right. exists user. apply insert_ids in Hins. destruct Hins as [-> _].
  split; [reflexivity|]. exact (new_User_role _ _ _ _ _ _ Hnew).
Qed.

Lemma post_register_roles (s : Store) (e : Env)
    (name email password given : Js.value) (u : User.t) :
  In u (users (fst (post_register s e name email password given))) ->
  In u (users s)
  \/ User.role u = Val "buyer"%string
  \/ (given <> Js.Undefined /\ castString given = Some (User.role u)).
Proof.
  intros Hu.
  destruct (post_register_users s e name email password given)
    as [[Hsame _]|(user & Hrun & Hrole)].
  - rewrite Hsame in Hu. now left.
  - rewrite Hrun in Hu. cbn [fst users set_users] in Hu.
    apply in_app_or in Hu. destruct Hu as [Hu|[<-|[]]]; [now left|].
    right. destruct given;
      try (right; split; [discriminate|exact Hrole]).
    left. simpl in Hrole. congruence.
Qed.

Section Requests.
Variable jwt_sign : Z -> Identity -> string.
Variable jwt_verify : Z -> string -> option Identity.

Lemma protected_keeps {B : Type} (view : Store -> B) (s : Store) (e : Env)
    (authorization : option string) (handler : Identity -> Store * Response) :
  (forall user, view (fst (handler user)) = view s) ->
  view (fst (protected jwt_verify s e authorization handler)) = view s.
Proof.
  intros Hhandler. unfold protected.
  destruct (auth jwt_verify e authorization); [apply Hhandler|reflexivity].
Qed.

(** Only registration writes the users collection. *)
Lemma handle_users (s : Store) (e : Env) (r : Request) :
  (forall name email password role, r <> PostRegister name email password role) ->
  users (fst (handle jwt_sign jwt_verify s e r)) = users s.
Proof.
  intros Hr. destruct r; cbn [handle fst]; try reflexivity;
    try (apply protected_keeps; intros user; cbn [fst]; try reflexivity).
  - exfalso. eapply Hr. reflexivity.
  - unfold post_products. split_cases; reflexivity.
  - unfold put_products_featured. split_cases; reflexivity.
  - unfold delete_products. split_cases; reflexivity.
  - unfold post_cart. split_cases; reflexivity.
  - unfold delete_cart. split_cases; reflexivity.
  - unfold post_banner. split_cases; reflexivity.
  - unfold post_orders. split_cases; reflexivity.
Qed.

Lemma run_roles (rs : list (Env * Request)) :
  forall (s : Store) (u : User.t),
    In u (users (run jwt_sign jwt_verify s rs)) ->
    In u (users s)
    \/ User.role u = Val "buyer"%string
    \/ exists e name email password role,
         In (e, PostRegister name email password role) rs
         /\ role <> Js.Undefined
         /\ castString role = Some (User.role u).
Proof.
  induction rs as [|[e r] rs IH]; simpl; intros s u Hu; [now left|].
  apply IH in Hu. destruct Hu as [Hu|[Hu|Hu]].
  - destruct r;
      try (rewrite handle_users in Hu by discriminate; now left).
    cbn [handle] in Hu. apply post_register_roles in Hu.
    destruct Hu as [Hu|[Hu|[Hgiven Hrole]]]; [now left|right; now left|].
    right. right. exists e. do 4 eexists.
    split; [left; reflexivity|]. split; [exact Hgiven|exact Hrole].
  - right. now left.
  - right. right. destruct Hu as (e0 & n & em & pw & ro & Hin & Hro).
    exists e0, n, em, pw, ro. split; [now right|exact Hro].
Qed.

End Requests.

(** C3, as the handlers have it.  After any sequence of requests on the
    empty store, the role of every stored user is "buyer" or is the cast to
    String of the role that some registration of the sequence supplied (the
    supplied string itself, or null for null).  A successful registration
    with the role unspecified stores "buyer"; one with a string role stores
    that string as it is, whether or not it is one of "buyer", "admin",
    "poster". *)
Theorem stored_roles (jwt_sign : Z -> Identity -> string)
    (jwt_verify : Z -> string -> option Identity) :
  (forall rs u,
     In u (users (run jwt_sign jwt_verify empty_store rs)) ->
     User.role u = Val "buyer"%string
     \/ exists e name email password role,
          In (e, PostRegister name email password role) rs
          /\ role <> Js.Undefined
          /\ castString role = Some (User.role u))
  /\ (forall s e name email password,
        status (snd (post_register s e name email password Js.Undefined)) = 201 ->
        exists u,
          users (fst (post_register s e name email password Js.Undefined))
          = users s ++ [u]
          /\ User.role u = Val "buyer"%string)
  /\ (forall s e name email password r,
        status (snd (post_register s e name email password (Js.Str r))) = 201 ->
        exists u,
          users (fst (post_register s e name email password (Js.Str r)))
          = users s ++ [u]
          /\ User.role u = Val r).
Proof.
  split; [|split].
  - intros rs u Hu. apply run_roles in Hu. destruct Hu as [[]|Hu]. exact Hu.
  - intros s e name email password Hstatus.
    destruct (post_register_users s e name email password Js.Undefined)
      as [[_ H400]|(user & Hrun & Hrole)]; [rewrite H400 in Hstatus; discriminate|].
    exists user. rewrite Hrun. split; [reflexivity|].
    simpl in Hrole. congruence.
  - intros s e name email password r Hstatus.
    destruct (post_register_users s e name email password (Js.Str r))
      as [[_ H400]|(user & Hrun & Hrole)]; [rewrite H400 in Hstatus; discriminate|].
    exists user. rewrite Hrun. split; [reflexivity|].
    simpl in Hrole. congruence.
Qed.

Lemma stored_roles_witness :
  exists u,
    users (fst (post_register Sample.members
                  (Sample.env 1 "64b000000000000000000004")
                  (Js.Str "Eve") (Js.Str "eve@soko.test") (Js.Str "hunter2")
                  Js.Undefined))
    = [Sample.bob; u]
    /\ User.role u = Val "buyer"%string.
Proof.
  apply (proj1 (proj2 (stored_roles Sample.sign
                         (Sample.verify_one "abc.def.ghi" Sample.admin)))
           Sample.members (Sample.env 1 "64b000000000000000000004")
           (Js.Str "Eve") (Js.Str "eve@soko.test") (Js.Str "hunter2")).
  reflexivity.
Defined.

(** C3 as stated fails: one registration that names the role "superuser" on
    the empty store leaves a user whose role is none of the three values. *)
Lemma register_stores_any_role :
  let s := run Sample.sign (Sample.verify_one "abc.def.ghi" Sample.admin)
             empty_store
             [(Sample.env 1 "64b000000000000000000004",
               PostRegister (Js.Str "Eve") (Js.Str "eve@soko.test")
                 (Js.Str "hunter2") (Js.Str "superuser"))] in
  exists u,
    In u (users s)
    /\ User.role u = Val "superuser"%string
    /\ User.role u <> Val "buyer"%string
    /\ User.role u <> Val "admin"%string
    /\ User.role u <> Val "poster"%string.
Proof.
  cbv zeta. eexists. split; [left; reflexivity|].
  repeat split; discriminate.
Qed.

(* ===================================================================== *)
(** ** Reachable stores *)
(* ===================================================================== *)

Section Reachable.
Variable jwt_sign : Z -> Identity -> string.
Variable jwt_verify : Z -> string -> option Identity.

Lemma protected_preserves (P : Store -> Prop) (s : Store) (e : Env)
    (authorization : option string) (handler : Identity -> Store * Response) :
  P s -> (forall user, P (fst (handler user))) ->
  P (fst (protected jwt_verify s e authorization handler)).
Proof.
  intros Hs Hhandler. unfold protected.
  destruct (auth jwt_verify e authorization); [apply Hhandler|exact Hs].
Qed.

Lemma update_unique_ids (s : Store) (cart : Cart.t) :
  unique_cart_ids s -> NoDup (map Cart._id (update cart (carts s))).
Proof.
  intros Hwf. rewrite (@update_ids _ Cart_Document). exact Hwf.
Qed.

(** Every request keeps the cart [_id]s apart. *)
Lemma handle_unique_cart_ids (s : Store) (e : Env) (r : Request) :
  unique_cart_ids s ->
  unique_cart_ids (fst (handle jwt_sign jwt_verify s e r)).
Proof.
  intros Hwf. destruct r; cbn [handle fst]; try exact Hwf;
    try (apply protected_preserves; [exact Hwf|intros user; cbn [fst]];
         try exact Hwf).
  - unfold post_register. split_cases; exact Hwf.
  - unfold post_products. split_cases; exact Hwf.
  - unfold put_products_featured. split_cases; exact Hwf.
  - unfold delete_products. split_cases; exact Hwf.
  - now apply post_cart_unique_ids.
  - unfold delete_cart. destruct (findOne (owned_by user) (carts s));
      [|exact Hwf].
    now apply update_unique_ids.
  - unfold post_banner. split_cases; exact Hwf.
  - unfold post_orders. destruct (findOne (owned_by user) (carts s));
      [|exact Hwf].
    destruct (_ =? _)%nat; [exact Hwf|].
    destruct (insert _ (orders s)); [|exact Hwf].
    now apply update_unique_ids.
Qed.

(** The hypothesis of the cart theorems holds of every store the server can
    reach from the empty one. *)
Lemma run_unique_cart_ids (rs : list (Env * Request)) (s : Store) :
  unique_cart_ids s -> unique_cart_ids (run jwt_sign jwt_verify s rs).
Proof.
  revert s. induction rs as [|[e r] rs IH]; simpl; intros s Hwf;
    [exact Hwf|].
  apply IH. now apply handle_unique_cart_ids.
Qed.

Lemma reachable_unique_cart_ids (rs : list (Env * Request)) :
  unique_cart_ids (run jwt_sign jwt_verify empty_store rs).
Proof. apply run_unique_cart_ids. constructor. Qed.

End Reachable.

(* ===================================================================== *)
(** ** Registration, login and the email index *)
(* ===================================================================== *)

(** What a registration answered with 201 has done. *)
Lemma post_register_created (s : Store) (e : Env)
    (name email password given : Js.value) :
  status (snd (post_register s e name email password given)) = 201 ->
  exists address plain user,
    Js.truthy email = true
    /\ castString email = Some (Val address)
    /\ findOne (fun u => (User.email u =? address)%string) (users s) = None
    /\ password = Js.Str plain
    /\ User._id user = fresh_id e
    /\ User.email user = address
    /\ User.password user = Bcrypt.Digest (salt e) plain
    /\ with_default "buyer"%string (castString given) = Some (User.role user)
    /\ post_register s e name email password given
       = (set_users s (users s ++ [user]),
          json 201 (Message "User registered successfully!")).
Proof.
  unfold post_register, Js.not.
  destruct (Js.truthy name); [|discriminate].
  destruct (Js.truthy email) eqn:Hemail; [|discriminate].
  destruct (Js.truthy password); [|discriminate].
  cbn [negb orb].
  destruct (castString email) as [[| |address]|] eqn:Hcast; try discriminate.
  destruct (findOne _ (users s)) eqn:Hfind; [discriminate|].
  destruct password as [| | | |plain]; try discriminate.
  cbn [Bcrypt.hash].
  destruct (new_User _ _ _ _ _) as [user|] eqn:Hnew; [|discriminate].
  destruct (insert user (users s)) as [us|] eqn:Hins; [|discriminate].
  intros _. exists address, plain, user.
  apply insert_ids in Hins. destruct Hins as [-> _].
  pose proof (new_User_role _ _ _ _ _ _ Hnew) as Hrole.
  unfold new_User in Hnew. rewrite Hcast in Hnew.
  destruct (required_string (castString name)); [|discriminate].
  cbn [required_string] in Hnew.
  destruct (address =? "")%string; [discriminate|].
  destruct (with_default _ _); [|discriminate].
  injection Hnew as <-. repeat split; try reflexivity; assumption.
Qed.




(** X2. A user who registered with a string password can log in with it: in
    the store a successful registration leaves, the login with the same
    email and password answers 200 with the token signed for the new user's
    [_id] and stored role; with the role unspecified at registration the
    token carries "buyer". *)
Theorem register_then_login (jwt_sign : Z -> Identity -> string)
    (s : Store) (e e' : Env) (name email password given : Js.value) :
  status (snd (post_register s e name email password given)) = 201 ->
  let s1 := fst (post_register s e name email password given) in
  exists stored,
    with_default "buyer"%string (castString given) = Some stored
    /\ post_login jwt_sign s1 e' email password
       = ok (TokenBody (jwt_sign (now e')
                          (mkIdentity (fresh_id e) (role_value stored))))
    /\ (given = Js.Undefined -> stored = Val "buyer"%string).
Proof.
  intros Hcreated s1.
  destruct (post_register_created s e name email password given Hcreated)
    as (address & plain & user & Hemail & Hcast & Hnone & -> & Hid & Haddress
        & Hdigest & Hrole & Hrun).
  exists (User.role user). split; [exact Hrole|]. split.
  - assert (Husers : users s1 = users s ++ [user]).
    { unfold s1. now rewrite Hrun. }
    assert (Hplain : Js.truthy (Js.Str plain) = true).
    { revert Hcreated. unfold post_register, Js.not.
      destruct (Js.truthy name); [|discriminate].
      rewrite Hemail. cbn [negb orb].
      destruct (Js.truthy (Js.Str plain)); [reflexivity|discriminate]. }
    unfold post_login, Js.not. rewrite Hemail, Hplain, Hcast, Husers.
    cbn [negb orb].
    rewrite (findOne_app_none _ (users s) user Hnone)
      by (rewrite Haddress; apply String.eqb_refl).
    rewrite Hdigest. cbn [Bcrypt.compare]. rewrite String.eqb_refl.
    now rewrite Hid.
  - intros ->. simpl in Hrole. congruence.
Qed.

Lemma register_then_login_witness :
  let e := Sample.env 1 "64b000000000000000000004" in
  let s1 := fst (post_register Sample.members e (Js.Str "Eve")
                   (Js.Str "eve@soko.test") (Js.Str "hunter2") Js.Undefined) in
  post_login Sample.sign s1 (Sample.env 2 "") (Js.Str "eve@soko.test")
    (Js.Str "hunter2")
  = ok (TokenBody "token.64b000000000000000000004").
Proof.
  cbv zeta.
  destruct (register_then_login Sample.sign Sample.members
              (Sample.env 1 "64b000000000000000000004") (Sample.env 2 "")
              (Js.Str "Eve") (Js.Str "eve@soko.test") (Js.Str "hunter2")
              Js.Undefined eq_refl) as (stored & _ & Hlogin & _).
  exact Hlogin.
Defined.

Lemma post_register_unique_emails (s : Store) (e : Env)
    (name email password given : Js.value) :
  unique_emails s ->
  unique_emails (fst (post_register s e name email password given)).
Proof.
  intros Hwf.
  destruct (post_register_users s e name email password given)
    as [[-> _]|(user0 & Hrun0 & _)]; [exact Hwf|].
  assert (Hcreated : status (snd (post_register s e name email password given))
                     = 201) by now rewrite Hrun0.
  destruct (post_register_created s e name email password given Hcreated)
    as (address & plain & user & _ & _ & Hnone & _ & _ & Haddress & _ & _
        & Hrun).
  rewrite Hrun. unfold unique_emails. cbn [fst users set_users].
  rewrite map_app. apply NoDup_app; [exact Hwf|repeat constructor; simpl; tauto|].
  intros a Ha [<-|[]]. apply in_map_iff in Ha. destruct Ha as (u & Hu & Hin).
  pose proof (find_none _ _ Hnone u Hin) as Hneq. cbn beta in Hneq.
  apply String.eqb_neq in Hneq. congruence.
Qed.

(** X3. The server keeps emails unique by itself: after any sequence of
    requests on the empty store, no two stored users have the same email. *)
Theorem reachable_unique_emails (jwt_sign : Z -> Identity -> string)
    (jwt_verify : Z -> string -> option Identity)
    (rs : list (Env * Request)) :
  unique_emails (run jwt_sign jwt_verify empty_store rs).
Proof.
  assert (Hrun : forall s, unique_emails s ->
                           unique_emails (run jwt_sign jwt_verify s rs)).
  { induction rs as [|[e r] rs IH]; simpl; intros s Hwf; [exact Hwf|].
    apply IH. destruct r;
      try (unfold unique_emails; rewrite handle_users by discriminate;
           exact Hwf).
    cbn [handle]. now apply post_register_unique_emails. }
  apply Hrun. constructor.
Qed.

(* ===================================================================== *)
(** ** Failures and the store *)
(* ===================================================================== *)

Ltac failed_or_same :=
  split_cases; cbn [fst snd status json ok];
  intros; first [reflexivity | congruence].

Lemma protected_failure (jwt_verify : Z -> string -> option Identity)
    (s : Store) (e : Env) (authorization : option string)
    (handler : Identity -> Store * Response) :
  (forall user,
     status (snd (handler user)) <> 200 ->
     status (snd (handler user)) <> 201 -> fst (handler user) = s) ->
  status (snd (protected jwt_verify s e authorization handler)) <> 200 ->
  status (snd (protected jwt_verify s e authorization handler)) <> 201 ->
  fst (protected jwt_verify s e authorization handler) = s.
Proof.
  intros Hhandler. unfold protected.
  destruct (auth jwt_verify e authorization); [apply Hhandler|reflexivity].
Qed.

(** X4. No request that is answered with a failure writes anything: when
    the status of the answer is neither 200 nor 201, all five collections
    are as they were before the request. *)
Theorem failure_keeps_store (jwt_sign : Z -> Identity -> string)
    (jwt_verify : Z -> string -> option Identity)
    (s : Store) (e : Env) (r : Request) :
  status (snd (handle jwt_sign jwt_verify s e r)) <> 200 ->
  status (snd (handle jwt_sign jwt_verify s e r)) <> 201 ->
  fst (handle jwt_sign jwt_verify s e r) = s.
Proof.
  destruct r; cbn [handle]; try (intros; reflexivity);
    try (apply protected_failure; intros user).
  - unfold post_register. failed_or_same.
  - unfold post_products. failed_or_same.
  - unfold put_products_featured. failed_or_same.
  - unfold delete_products. failed_or_same.
  - intros; reflexivity.
  - unfold post_cart. failed_or_same.
  - intros; reflexivity.
  - unfold delete_cart. failed_or_same.
  - unfold post_banner. failed_or_same.
  - unfold post_orders. failed_or_same.
  - intros; reflexivity.
Qed.

Lemma failure_keeps_store_witness :
  fst (handle Sample.sign (Sample.verify_one "abc.def.ghi" Sample.alice)
         Sample.shop (Sample.env 1 "64c0000000000000000000b1")
         (PostCart (Some "Bearer abc.def.ghi") (Js.Str Sample.soap)
            (Js.Str "many")))
  = Sample.shop.
Proof.
  apply failure_keeps_store; discriminate.
Defined.

(* ===================================================================== *)
(** ** Who gets past [auth] *)
(* ===================================================================== *)

(** X5. [auth] attaches an identity only when the header has a second
    piece (split at spaces), that piece is not empty, and [jwt.verify]
    accepts it; the identity attached is the verified payload. *)
Theorem auth_accepts_only_verified
    (jwt_verify : Z -> string -> option Identity) (e : Env)
    (authorization : option string) (user : Identity) :
  auth jwt_verify e authorization = inl user ->
  exists header token,
    authorization = Some header
    /\ nth_error (Js.split " " header) 1 = Some token
    /\ token <> ""%string
    /\ jwt_verify (now e) token = Some user.
Proof.
  unfold auth, Js.index. destruct authorization as [header|]; [|discriminate].
  destruct (nth_error (Js.split " " header) 1) as [token|] eqn:Hpiece;
    [|discriminate].
  unfold Js.not. cbn [Js.truthy Js.to_string].
  destruct token as [|c token]; [discriminate|]. cbn [String.eqb negb].
  destruct (jwt_verify (now e) (String c token)) as [decoded|] eqn:Hverify;
    [|discriminate].
  intros [= <-]. exists header, (String c token).
  split; [reflexivity|]. split; [exact Hpiece|].
  split; [discriminate|exact Hverify].
Qed.

Lemma auth_accepts_only_verified_witness :
  exists header token,
    Some "Token abc.def.ghi"%string = Some header
    /\ nth_error (Js.split " " header) 1 = Some token
    /\ token <> ""%string
    /\ Sample.verify_one "abc.def.ghi" Sample.alice 1 token = Some Sample.alice.
Proof.
  apply (auth_accepts_only_verified
           (Sample.verify_one "abc.def.ghi" Sample.alice) (Sample.env 1 "")
           (Some "Token abc.def.ghi"%string) Sample.alice).
  reflexivity.
Defined.

Lemma auth_refusal (jwt_verify : Z -> string -> option Identity) (e : Env)
    (authorization : option string) (refusal : Response) :
  auth jwt_verify e authorization = inr refusal -> status refusal = 401.
Proof.
  unfold auth. destruct (Js.not _); [now intros [= <-]|].
  destruct (jwt_verify _ _); [discriminate|now intros [= <-]].
Qed.

Lemma handle_protected (jwt_sign : Z -> Identity -> string)
    (jwt_verify : Z -> string -> option Identity) (s : Store) (e : Env)
    (r : Request) (authorization : option string) (refusal : Response) :
  authorization_of r = Some authorization ->
  auth jwt_verify e authorization = inr refusal ->
  handle jwt_sign jwt_verify s e r = (s, refusal).
Proof.
  intros Hr Hauth.
  destruct r; try discriminate; injection Hr as ->; cbn [handle];
    unfold protected; now rewrite Hauth.
Qed.

(** X6. The ten routes registered with [auth] are closed without a token
    that verifies.  With no Authorization header the answer is 401 "No token
    provided"; with a header whose second piece is missing or does not
    verify the answer is 401; in both cases the handler does not run and
    the store stays as it is. *)
Theorem protected_routes_refuse (jwt_sign : Z -> Identity -> string)
    (jwt_verify : Z -> string -> option Identity) (s : Store) (e : Env)
    (r : Request) (authorization : option string) :
  authorization_of r = Some authorization ->
  (authorization = None ->
   handle jwt_sign jwt_verify s e r
   = (s, json 401 (Message "No token provided")))
  /\ (forall header,
        authorization = Some header ->
        (forall token, nth_error (Js.split " " header) 1 = Some token ->
                       jwt_verify (now e) token = None) ->
        fst (handle jwt_sign jwt_verify s e r) = s
        /\ status (snd (handle jwt_sign jwt_verify s e r)) = 401).
Proof.
  intros Hr. split.
  - intros ->. now apply handle_protected with (authorization := None).
  - intros header -> Hreject.
    destruct (auth jwt_verify e (Some header)) as [user|refusal] eqn:Hauth.
    + apply auth_accepts_only_verified in Hauth.
      destruct Hauth as (h & token & [= <-] & Hpiece & _ & Hverify).
      rewrite (Hreject token Hpiece) in Hverify. discriminate.
    + rewrite (handle_protected jwt_sign jwt_verify s e r (Some header)
                 refusal Hr Hauth).
      split; [reflexivity|]. exact (auth_refusal _ _ _ _ Hauth).
Qed.

Lemma protected_routes_refuse_witness :
  handle Sample.sign (Sample.verify_one "abc.def.ghi" Sample.alice)
    Sample.shop (Sample.env 1 "64e000000000000000000001") (PostOrders None)
  = (Sample.shop, json 401 (Message "No token provided")).
Proof.
  apply (proj1 (protected_routes_refuse Sample.sign
                  (Sample.verify_one "abc.def.ghi" Sample.alice) Sample.shop
                  (Sample.env 1 "64e000000000000000000001") (PostOrders None)
                  None eq_refl)).
  reflexivity.
Defined.

(* ===================================================================== *)
(** ** Carts: one per user, and each user's own *)
(* ===================================================================== *)

Section UpdateFacts.
Context {A : Type} `{Document A}.

Lemma update_In (d y : A) (c : list A) :
  In y (update d c) -> y = d \/ In y c.
Proof.
  induction c as [|x c IH]; simpl; [tauto|].
  destruct (has_id (doc_id d) x); simpl; intuition.
Qed.

Lemma update_map {B : Type} (g : A -> B) (f : A -> bool) (d x : A)
    (c : list A) :
  NoDup (map doc_id c) -> findOne f c = Some x ->
  doc_id d = doc_id x -> g d = g x ->
  map g (update d c) = map g c.
Proof.
  unfold findOne.
  induction c as [|y c IH]; simpl; intros Hnd Hx Hid Hg; [reflexivity|].
  inversion Hnd as [|? ? Hy Hc]; subst.
  destruct (has_id (doc_id d) y) eqn:E; simpl.
  - apply has_id_eq in E. destruct (f y).
    + injection Hx as ->. now rewrite Hg.
    + exfalso. apply Hy. apply find_some in Hx. destruct Hx as [Hin _].
      rewrite E, Hid. now apply in_map.
  - destruct (f y).
    + injection Hx as ->.
      assert (has_id (doc_id d) x = true) by now apply has_id_eq.
      congruence.
    + f_equal. now apply IH.
Qed.

Lemma findOne_update_other (f g : A -> bool) (d x : A) (c : list A) :
  NoDup (map doc_id c) -> findOne g c = Some x ->
  doc_id d = doc_id x -> f x = false -> f d = false ->
  findOne f (update d c) = findOne f c.
Proof.
  unfold findOne.
  induction c as [|y c IH]; simpl; intros Hnd Hx Hid Hfx Hfd; [reflexivity|].
  inversion Hnd as [|? ? Hy Hc]; subst.
  destruct (has_id (doc_id d) y) eqn:E; simpl.
  - apply has_id_eq in E. destruct (g y).
    + injection Hx as ->. now rewrite Hfx, Hfd.
    + exfalso. apply Hy. apply find_some in Hx. destruct Hx as [Hin _].
      rewrite E, Hid. now apply in_map.
  - destruct (g y).
    + injection Hx as ->.
      assert (has_id (doc_id d) x = true) by now apply has_id_eq.
      congruence.
    + destruct (f y); [reflexivity|]. now apply IH.
Qed.

Lemma findOne_app_other (f : A -> bool) (d : A) (c : list A) :
  f d = false -> findOne f (c ++ [d]) = findOne f c.
Proof.
  unfold findOne. intros Hd.
  induction c as [|y c IH]; simpl; [now rewrite Hd|].
  destruct (f y); [reflexivity|exact IH].
Qed.

Lemma update_update (d d' : A) (c : list A) :
  doc_id d' = doc_id d -> update d' (update d c) = update d' c.
Proof.
  intros Hid. induction c as [|x c IH]; [reflexivity|].
  cbn [update].
  assert (Hx : has_id (doc_id d') x = has_id (doc_id d) x) by now rewrite Hid.
  rewrite Hx. destruct (has_id (doc_id d) x) eqn:E; cbn [update].
  - assert (Hd : has_id (doc_id d') d = true).
    { apply has_id_eq. now symmetry. }
    now rewrite Hd.
  - rewrite Hx. f_equal. exact IH.
Qed.

End UpdateFacts.

(** How each of the three handlers that write carts does it. *)
Lemma post_cart_write (s : Store) (e : Env) (user : Identity)
    (productId quantity : Js.value) :
  cart_write s user (carts (fst (post_cart s e user productId quantity))).
Proof.
  unfold post_cart, cart_write.
  destruct (_ || _ || _); [now left|].
  destruct (findOne (owned_by user) (carts s)) as [cart|] eqn:Hcart.
  - destruct (match Js.findIndex _ _ with Some _ => _ | None => _ end)
      as [ps|]; [|now left].
    right. left.
    exists cart, (Cart.make (Cart._id cart) (Cart.user cart) ps).
    repeat split.
  - destruct (new_Line productId quantity) as [l|]; [|now left].
    destruct (insert _ (carts s)) as [cs|] eqn:Hins; [|now left].
    right. right. eexists. split; [reflexivity|]. split; [|exact Hins].
    reflexivity.
Qed.

Lemma delete_cart_write (s : Store) (user : Identity) (productId : string) :
  cart_write s user (carts (fst (delete_cart s user productId))).
Proof.
  unfold delete_cart, cart_write.
  destruct (findOne (owned_by user) (carts s)) as [cart|] eqn:Hcart;
    [|now left].
  right. left.
  exists cart, (Cart.make (Cart._id cart) (Cart.user cart)
                  (filter (fun p => negb (Line.product p =? productId)%string)
                     (Cart.products cart))).
  repeat split.
Qed.

Lemma post_orders_write (s : Store) (e : Env) (user : Identity) :
  cart_write s user (carts (fst (post_orders s e user))).
Proof.
  unfold post_orders, cart_write.
  destruct (findOne (owned_by user) (carts s)) as [cart|] eqn:Hcart;
    [|now left].
  destruct (_ =? _)%nat; [now left|].
  destruct (insert _ (orders s)); [|now left].
  right. left. exists cart, (Cart.make (Cart._id cart) (Cart.user cart) []).
  repeat split.
Qed.

Lemma cart_write_owners (s : Store) (user : Identity) (cs : list Cart.t) :
  unique_cart_ids s -> one_cart_per_user s -> cart_write s user cs ->
  NoDup (map Cart.user cs).
Proof.
  intros Hids Howners [->|[(cart & cart' & Hcart & Hid & Huser & ->)
                          |(cart & Hnone & Huser & Hins)]].
  - exact Howners.
  - rewrite (@update_map _ Cart_Document _ Cart.user (owned_by user) cart' cart
               (carts s) Hids Hcart Hid Huser).
    exact Howners.
  - apply insert_ids in Hins. destruct Hins as [-> _].
    rewrite map_app. apply NoDup_app; [exact Howners| |].
    + repeat constructor; simpl; tauto.
    + intros a Ha [<-|[]]. apply in_map_iff in Ha.
      destruct Ha as (c & Hc & Hin).
      pose proof (find_none _ _ Hnone c Hin) as Hneq.
      unfold owned_by in Hneq. apply String.eqb_neq in Hneq. congruence.
Qed.

Section CartOwners.
Variable jwt_sign : Z -> Identity -> string.
Variable jwt_verify : Z -> string -> option Identity.

Lemma handle_cart_write (s : Store) (e : Env) (r : Request) :
  carts (fst (handle jwt_sign jwt_verify s e r)) = carts s
  \/ exists user,
       cart_write s user (carts (fst (handle jwt_sign jwt_verify s e r))).
Proof.
  destruct r; cbn [handle fst]; try (now left);
    try (unfold protected; destruct (auth jwt_verify e authorization) as [user|];
         [|now left]).
  - left. unfold post_register. split_cases; reflexivity.
  - left. unfold post_products. split_cases; reflexivity.
  - left. unfold put_products_featured. split_cases; reflexivity.
  - left. unfold delete_products. split_cases; reflexivity.
  - now left.
  - right. exists user. apply post_cart_write.
  - now left.
  - right. exists user. apply delete_cart_write.
  - left. unfold post_banner. split_cases; reflexivity.
  - right. exists user. apply post_orders_write.
  - now left.
Qed.

End CartOwners.

(** X7. A request that runs on its own keeps one cart per user: when it
    starts on a store in which cart [_id]s are unique and no two carts
    belong to the same user, the store it leaves has no two carts of the
    same user either.  The schema does not enforce this; it rests on the
    handler looking for the user's cart before it creates one, with no
    other write between the two. *)
Theorem request_keeps_one_cart_per_user (jwt_sign : Z -> Identity -> string)
    (jwt_verify : Z -> string -> option Identity)
    (s : Store) (e : Env) (r : Request) :
  unique_cart_ids s -> one_cart_per_user s ->
  one_cart_per_user (fst (handle jwt_sign jwt_verify s e r)).
Proof.
  intros Hids Howners. unfold one_cart_per_user.
  destruct (handle_cart_write jwt_sign jwt_verify s e r)
    as [->|[user Hwrite]]; [exact Howners|].
  exact (cart_write_owners s user _ Hids Howners Hwrite).
Qed.

Lemma request_keeps_one_cart_per_user_witness :
  map Cart.user
    (carts (fst (handle Sample.sign
                   (Sample.verify_one "abc.def.ghi" Sample.admin) Sample.shop
                   (Sample.env 1 "64d000000000000000000002")
                   (PostCart (Some "Bearer abc.def.ghi") (Js.Str Sample.tea)
                      (Js.Num (Js.Int 3))))))
  = [id Sample.alice; id Sample.admin]
  /\ one_cart_per_user
       (fst (handle Sample.sign
               (Sample.verify_one "abc.def.ghi" Sample.admin) Sample.shop
               (Sample.env 1 "64d000000000000000000002")
               (PostCart (Some "Bearer abc.def.ghi") (Js.Str Sample.tea)
                  (Js.Num (Js.Int 3))))).
Proof.
  split; [reflexivity|].
  apply request_keeps_one_cart_per_user;
    repeat constructor; simpl; tauto.
Defined.

Lemma owned_by_other (u v : Identity) (cart : Cart.t) :
  id v <> id u -> owned_by u cart = true -> owned_by v cart = false.
Proof.
  unfold owned_by. intros Hvu Hu. apply String.eqb_eq in Hu.
  apply String.eqb_neq. congruence.
Qed.

Lemma cart_write_other (s : Store) (u v : Identity) (cs : list Cart.t) :
  unique_cart_ids s -> id v <> id u -> cart_write s u cs ->
  findOne (owned_by v) cs = findOne (owned_by v) (carts s).
Proof.
  intros Hids Hvu [->|[(cart & cart' & Hcart & Hid & Huser & ->)
                      |(cart & Hnone & Huser & Hins)]].
  - reflexivity.
  - pose proof (proj2 (findOne_in _ _ _ Hcart)) as Hu.
    apply (@findOne_update_other _ Cart_Document (owned_by v) (owned_by u)
             cart' cart (carts s) Hids Hcart Hid).
    + now apply (owned_by_other u v).
    + apply (owned_by_other u v cart' Hvu). unfold owned_by in *.
      now rewrite Huser.
  - apply insert_ids in Hins. destruct Hins as [-> _].
    apply findOne_app_other. unfold owned_by. rewrite Huser.
    apply String.eqb_neq. congruence.
Qed.

(** X8. What one user does to a cart never touches another user's cart:
    adding a line, removing a line or placing an order as [u] leaves the
    cart stored for any other user [v] exactly as it was. *)
Theorem other_carts_untouched (s : Store) (e : Env) (u v : Identity)
    (productId quantity : Js.value) (removed : string) :
  unique_cart_ids s -> id v <> id u ->
  findOne (owned_by v) (carts (fst (post_cart s e u productId quantity)))
  = findOne (owned_by v) (carts s)
  /\ findOne (owned_by v) (carts (fst (delete_cart s u removed)))
     = findOne (owned_by v) (carts s)
  /\ findOne (owned_by v) (carts (fst (post_orders s e u)))
     = findOne (owned_by v) (carts s).
Proof.
  intros Hids Hvu. repeat split; apply (cart_write_other s u v); try assumption.
  - apply post_cart_write.
  - apply delete_cart_write.
  - apply post_orders_write.
Qed.

Lemma other_carts_untouched_witness :
  findOne (owned_by Sample.alice)
    (carts (fst (post_orders Sample.shop (Sample.env 1 "64e000000000000000000001")
                   Sample.admin)))
  = Some Sample.alice_cart
  /\ findOne (owned_by Sample.alice)
       (carts (fst (post_cart Sample.shop (Sample.env 1 "64d000000000000000000002")
                      Sample.admin (Js.Str Sample.tea) (Js.Num (Js.Int 3)))))
     = Some Sample.alice_cart.
Proof.
  assert (Hids : unique_cart_ids Sample.shop).
  { repeat constructor; simpl; tauto. }
  assert (Hother : id Sample.alice <> id Sample.admin) by discriminate.
  split.
  - exact (proj2 (proj2 (other_carts_untouched Sample.shop
                           (Sample.env 1 "64e000000000000000000001")
                           Sample.admin Sample.alice Js.Undefined Js.Undefined
                           "" Hids Hother))).
  - exact (proj1 (other_carts_untouched Sample.shop
                    (Sample.env 1 "64d000000000000000000002")
                    Sample.admin Sample.alice (Js.Str Sample.tea)
                    (Js.Num (Js.Int 3)) "" Hids Hother)).
Defined.

(* ===================================================================== *)
(** ** Removing lines *)
(* ===================================================================== *)





(** X10. Adding a product that the cart does not hold and removing it again
    is a round trip: for a user who has a cart without a line for the
    product, POST /api/cart (a product id, a positive number) followed by
    DELETE /api/cart/:productId gives back the store as it was. *)
Theorem add_then_remove (s : Store) (e : Env) (user : Identity)
    (p : ObjectId) (q : Z) (cart : Cart.t) :
  is_ObjectId p = true -> 0 < q -> unique_cart_ids s ->
  findOne (owned_by user) (carts s) = Some cart ->
  lines_for p (Cart.products cart) = [] ->
  fst (delete_cart
         (fst (post_cart s e user (Js.Str p) (Js.Num (Js.Int q)))) user p)
  = s.
Proof.
  intros Hp Hq Hids Hcart Hnone.
  destruct (post_cart_new_line s e user p q cart Hp Hq Hids Hcart Hnone)
    as [-> Hfound].
  set (cart1 := Cart.make _ _ _) in *.
  unfold delete_cart. cbn [fst carts set_carts]. rewrite Hfound.
  cbn [Cart._id Cart.user Cart.products cart1 fst].
  rewrite filter_app, filter_all.
  - cbn [filter]. rewrite String.eqb_refl. cbn [negb]. rewrite app_nil_r.
    replace (Cart.make (Cart._id cart) (Cart.user cart) (Cart.products cart))
      with cart by now destruct cart.
    rewrite (@update_update _ Cart_Document cart1 cart (carts s) eq_refl).
    rewrite (@update_same _ Cart_Document _ _ _ Hids Hcart).
    unfold set_carts. cbn [users products carts orders banners].
    now destruct s.
  - intros l Hl. apply negb_true_iff. apply String.eqb_neq.
    now apply (lines_for_none p (Cart.products cart)).
Qed.

Lemma add_then_remove_witness :
  fst (delete_cart
         (fst (post_cart Sample.shop (Sample.env 1 "")
                 Sample.alice (Js.Str "64c0000000000000000000a3")
                 (Js.Num (Js.Int 4))))
         Sample.alice "64c0000000000000000000a3")
  = Sample.shop.
Proof.
  apply (add_then_remove Sample.shop (Sample.env 1 "") Sample.alice
           "64c0000000000000000000a3" 4 Sample.alice_cart);
    try reflexivity.
  repeat constructor; simpl; tauto.
Defined.

(* ===================================================================== *)
(** ** Quantities stay positive *)
(* ===================================================================== *)

Lemma update_at_In {A : Type} (change : A -> option A) (index : nat)
    (xs ys : list A) (y : A) :
  update_at index change xs = Some ys -> In y ys ->
  In y xs \/ exists x, In x xs /\ change x = Some y.
Proof.
  revert index ys. induction xs as [|x xs IH]; intros [|i] ys; simpl;
    try discriminate.
  - destruct (change x) as [x'|] eqn:Hx; [|discriminate].
    intros [= <-] [<-|Hy]; [right; exists x; tauto|left; now right].
  - destruct (update_at i change xs) as [zs|] eqn:Hzs; [|discriminate].
    intros [= <-] [<-|Hy]; [left; now left|].
    destruct (IH i zs Hzs Hy) as [Hin|(x0 & Hin & Hx0)]; [left; now right|].
    right. exists x0. tauto.
Qed.

Lemma positive_update (s : Store) (cart' : Cart.t) :
  positive_quantities s ->
  (forall l, In l (Cart.products cart') -> 0 < Line.quantity l) ->
  positive_quantities (set_carts s (update cart' (carts s))).
Proof.
  intros Hs Hcart' cart l Hcart Hl. cbn [carts set_carts] in Hcart.
  apply (@update_In _ Cart_Document) in Hcart.
  destruct Hcart as [->|Hcart]; [now apply Hcart'|now apply (Hs cart)].
Qed.

(** The guard of POST /api/cart lets a number through only when it is above
    zero. *)
Lemma guard_number_positive (productId : Js.value) (n : Js.number) :
  Js.not productId || Js.not (Js.Num n) || Js.le_num (Js.Num n) 0 = false ->
  exists z, n = Js.Int z /\ 0 < z.
Proof.
  intros Hguard. apply orb_false_iff in Hguard. destruct Hguard as [Hguard Hle].
  apply orb_false_iff in Hguard. destruct Hguard as [_ Htruthy].
  destruct n as [|z]; [discriminate|]. exists z. split; [reflexivity|].
  unfold Js.le_num in Hle. cbn [Js.to_number] in Hle.
  apply Z.leb_gt in Hle. exact Hle.
Qed.

Lemma new_Line_quantity (productId : Js.value) (z : Z) (l : Line.t) :
  new_Line productId (Js.Num (Js.Int z)) = Some l -> Line.quantity l = z.
Proof.
  unfold new_Line. destruct (required (castObjectId productId)); [|discriminate].
  now intros [= <-].
Qed.

Lemma post_cart_positive (s : Store) (e : Env) (user : Identity)
    (productId : Js.value) (n : Js.number) :
  positive_quantities s ->
  positive_quantities (fst (post_cart s e user productId (Js.Num n))).
Proof.
  intros Hs. unfold post_cart.
  destruct (_ || _ || _) eqn:Hguard; [exact Hs|].
  destruct (guard_number_positive productId n Hguard) as (z & -> & Hz).
  destruct (findOne (owned_by user) (carts s)) as [cart|] eqn:Hcart.
  - pose proof (proj1 (findOne_in _ _ _ Hcart)) as Hin.
    destruct (Js.findIndex _ _) as [index|].
    + destruct (update_at index _ _) as [ps|] eqn:Hps; [|exact Hs].
      apply positive_update; [exact Hs|]. cbn [Cart.products].
      intros l Hl.
      destruct (update_at_In _ _ _ _ l Hps Hl) as [Hold|(l0 & Hold & Hnew)].
      * now apply (Hs cart).
      * rewrite add_quantity_number in Hnew. injection Hnew as <-.
        cbn [Line.quantity]. specialize (Hs cart l0 Hin Hold). lia.
    + destruct (new_Line productId (Js.Num (Js.Int z))) as [l0|] eqn:Hnew;
        [|exact Hs].
      apply positive_update; [exact Hs|]. cbn [Cart.products option_map].
      intros l Hl. apply in_app_or in Hl. destruct Hl as [Hl|[<-|[]]].
      * now apply (Hs cart).
      * now rewrite (new_Line_quantity _ _ _ Hnew).
  - destruct (new_Line productId (Js.Num (Js.Int z))) as [l0|] eqn:Hnew;
      [|exact Hs].
    destruct (insert _ (carts s)) as [cs|] eqn:Hins; [|exact Hs].
    apply insert_ids in Hins. destruct Hins as [-> _].
    intros cart l Hcart' Hl. cbn [fst carts set_carts] in Hcart'.
    apply in_app_or in Hcart'. destruct Hcart' as [Hcart'|[<-|[]]].
    + now apply (Hs cart).
    + destruct Hl as [<-|[]]. now rewrite (new_Line_quantity _ _ _ Hnew).
Qed.

Lemma delete_cart_positive (s : Store) (user : Identity) (p : string) :
  positive_quantities s -> positive_quantities (fst (delete_cart s user p)).
Proof.
  intros Hs. unfold delete_cart.
  destruct (findOne (owned_by user) (carts s)) as [cart|] eqn:Hcart;
    [|exact Hs].
  apply positive_update; [exact Hs|]. cbn [Cart.products].
  intros l Hl. apply filter_In in Hl.
  apply (Hs cart); [exact (proj1 (findOne_in _ _ _ Hcart))|tauto].
Qed.

Lemma post_orders_positive (s : Store) (e : Env) (user : Identity) :
  positive_quantities s -> positive_quantities (fst (post_orders s e user)).
Proof.
  intros Hs. unfold post_orders.
  destruct (findOne (owned_by user) (carts s)) as [cart|]; [|exact Hs].
  destruct (_ =? _)%nat; [exact Hs|].
  destruct (insert _ (orders s)) as [os|]; [|exact Hs].
  cbn [fst]. intros c line Hc Hline. cbn [carts set_carts set_orders] in Hc.
  apply (@update_In _ Cart_Document) in Hc. destruct Hc as [->|Hc].
  - destruct Hline.
  - now apply (Hs c).
Qed.

(** X11. As long as clients send the quantity as a number, no cart ever
    holds a line with a quantity of zero or less: after any sequence of
    requests on the empty store in which every POST /api/cart carries a
    number as quantity, every line of every stored cart has a quantity
    above zero. *)
Theorem reachable_positive_quantities (jwt_sign : Z -> Identity -> string)
    (jwt_verify : Z -> string -> option Identity)
    (rs : list (Env * Request)) :
  (forall e r, In (e, r) rs -> numeric_quantity r) ->
  positive_quantities (run jwt_sign jwt_verify empty_store rs).
Proof.
  assert (Hrun : forall s,
            (forall e r, In (e, r) rs -> numeric_quantity r) ->
            positive_quantities s ->
            positive_quantities (run jwt_sign jwt_verify s rs)).
  { induction rs as [|[e r] rs IH]; simpl; intros s Hrs Hs; [exact Hs|].
    apply IH; [intros e0 r0 Hin; apply (Hrs e0 r0); now right|].
    pose proof (Hrs e r (or_introl eq_refl)) as Hr.
    destruct r; cbn [handle fst]; try exact Hs;
      try (apply protected_preserves; [exact Hs|intros user; cbn [fst]];
           try exact Hs).
    - unfold post_register. split_cases; exact Hs.
    - unfold post_products. split_cases; exact Hs.
    - unfold put_products_featured. split_cases; exact Hs.
    - unfold delete_products. split_cases; exact Hs.
    - destruct Hr as [n ->]. now apply post_cart_positive.
    - now apply delete_cart_positive.
    - unfold post_banner. split_cases; exact Hs.
    - now apply post_orders_positive. }
  intros Hrs. apply Hrun; [exact Hrs|]. intros cart l [].
Qed.

Lemma reachable_positive_quantities_witness :
  positive_quantities
    (run Sample.sign (Sample.verify_one "abc.def.ghi" Sample.alice) empty_store
       [(Sample.env 1 "64d000000000000000000001",
         PostCart (Some "Bearer abc.def.ghi") (Js.Str Sample.soap)
           (Js.Num (Js.Int 2)));
        (Sample.env 2 "64d000000000000000000002",
         PostCart (Some "Bearer abc.def.ghi") (Js.Str Sample.soap)
           (Js.Num (Js.Int (-5))))]).
Proof.
  apply reachable_positive_quantities.
  intros e r [[= <- <-]|[[= <- <-]|[]]]; simpl; eauto.
Defined.

(* ===================================================================== *)
(** ** Orders *)
(* ===================================================================== *)

(** What a placed order (201) is and what it leaves. *)
Lemma post_orders_placed (s : Store) (e : Env) (user : Identity) :
  status (snd (post_orders s e user)) = 201 ->
  exists cart order,
    findOne (owned_by user) (carts s) = Some cart
    /\ Cart.products cart <> []
    /\ order = Order.make (fresh_id e) (id user) (Cart.products cart) (now e)
    /\ post_orders s e user
       = (set_carts (set_orders s (orders s ++ [order]))
            (update (Cart.make (Cart._id cart) (Cart.user cart) []) (carts s)),
          json 201 (OrderBody order)).
Proof.
  unfold post_orders.
  destruct (findOne (owned_by user) (carts s)) as [cart|]; [|discriminate].
  destruct (Cart.products cart) as [|l ls] eqn:Hlines; [discriminate|].
  cbn [List.length Nat.eqb]. rewrite <- Hlines, copy_lines.
  destruct (insert _ (orders s)) as [os|] eqn:Hins; [|discriminate].
  intros _. apply insert_ids in Hins. destruct Hins as [-> _].
  exists cart. eexists. split; [reflexivity|]. split; [congruence|].
  split; reflexivity.
Qed.

Section OrderFacts.
Variable jwt_sign : Z -> Identity -> string.
Variable jwt_verify : Z -> string -> option Identity.

(** A request leaves the orders alone or appends one order with items. *)
Lemma handle_orders (s : Store) (e : Env) (r : Request) :
  orders (fst (handle jwt_sign jwt_verify s e r)) = orders s
  \/ exists order,
       orders (fst (handle jwt_sign jwt_verify s e r)) = orders s ++ [order]
       /\ Order.items order <> [].
Proof.
  destruct r; cbn [handle fst]; try (now left);
    try (unfold protected; destruct (auth jwt_verify e authorization) as [user|];
         [|now left]).
  - left. unfold post_register. split_cases; reflexivity.
  - left. unfold post_products. split_cases; reflexivity.
  - left. unfold put_products_featured. split_cases; reflexivity.
  - left. unfold delete_products. split_cases; reflexivity.
  - now left.
  - left. unfold post_cart. split_cases; reflexivity.
  - now left.
  - left. unfold delete_cart. split_cases; reflexivity.
  - left. unfold post_banner. split_cases; reflexivity.
  - destruct (Z.eq_dec (status (snd (post_orders s e user))) 201) as [Hplaced|Hnot].
    + destruct (post_orders_placed s e user Hplaced)
        as (cart & order & _ & Hlines & -> & ->).
      right. eexists. split; [reflexivity|exact Hlines].
    + left. revert Hnot. unfold post_orders. split_cases;
        cbn [snd status json]; intros; try reflexivity; congruence.
  - now left.
Qed.

Lemma run_orders (rs : list (Env * Request)) (s : Store) :
  exists placed,
    orders (run jwt_sign jwt_verify s rs) = orders s ++ placed
    /\ Forall (fun order => Order.items order <> []) placed.
Proof.
  revert s. induction rs as [|[e r] rs IH]; simpl; intros s.
  - exists []. split; [now rewrite app_nil_r|constructor].
  - destruct (IH (fst (handle jwt_sign jwt_verify s e r)))
      as (placed & -> & Hplaced).
    destruct (handle_orders s e r) as [->|(order & -> & Horder)].
    + now exists placed.
    + exists (order :: placed). rewrite <- app_assoc. split; [reflexivity|].
      now constructor.
Qed.

End OrderFacts.

(** X12. Orders are only ever appended: whatever the requests, the orders
    stored before them are still there afterwards, unchanged and in the same
    order, followed by the orders placed since. *)
Theorem orders_append_only (jwt_sign : Z -> Identity -> string)
    (jwt_verify : Z -> string -> option Identity)
    (s : Store) (rs : list (Env * Request)) :
  exists placed, orders (run jwt_sign jwt_verify s rs) = orders s ++ placed.
Proof.
  destruct (run_orders jwt_sign jwt_verify rs s) as (placed & Hrun & _).
  now exists placed.
Qed.

(** X13. No order is empty: after any sequence of requests on the empty
    store, every stored order has at least one item. *)
Theorem reachable_orders_nonempty (jwt_sign : Z -> Identity -> string)
    (jwt_verify : Z -> string -> option Identity)
    (rs : list (Env * Request)) :
  Forall (fun order => Order.items order <> [])
    (orders (run jwt_sign jwt_verify empty_store rs)).
Proof.
  destruct (run_orders jwt_sign jwt_verify rs empty_store)
    as (placed & -> & Hplaced).
  exact Hplaced.
Qed.

(** X14. A placed order shows up in the user's order list: when
    POST /api/orders answers 201 with an order, GET /api/orders for the same
    user afterwards answers the list it answered before, followed by that
    order with its product references expanded. *)
Theorem get_orders_after_post_orders (s : Store) (e : Env) (user : Identity) :
  status (snd (post_orders s e user)) = 201 ->
  exists order before,
    snd (post_orders s e user) = json 201 (OrderBody order)
    /\ get_orders s user = ok (OrderList before)
    /\ get_orders (fst (post_orders s e user)) user
       = ok (OrderList
               (before ++ [(order, populate_lines s (Order.items order))])).
Proof.
  intros Hplaced.
  destruct (post_orders_placed s e user Hplaced)
    as (cart & order & _ & _ & Horder & ->).
  exists order. eexists. split; [reflexivity|]. split; [reflexivity|].
  unfold get_orders, find. cbn [fst orders set_carts set_orders].
  rewrite filter_app, map_app. cbn [filter].
  rewrite Horder at 1. cbn [Order.user]. rewrite String.eqb_refl.
  reflexivity.
Qed.

Lemma get_orders_after_post_orders_witness :
  exists order before,
    snd (post_orders Sample.shop (Sample.env 7 "64e000000000000000000001")
           Sample.alice) = json 201 (OrderBody order)
    /\ get_orders Sample.shop Sample.alice = ok (OrderList before)
    /\ get_orders
         (fst (post_orders Sample.shop (Sample.env 7 "64e000000000000000000001")
                 Sample.alice)) Sample.alice
       = ok (OrderList
               (before
                ++ [(order, populate_lines Sample.shop (Order.items order))])).
Proof.
  apply (get_orders_after_post_orders Sample.shop
           (Sample.env 7 "64e000000000000000000001") Sample.alice).
  reflexivity.
Defined.

(* ===================================================================== *)
(** ** Products: the featured flag and deletion *)
(* ===================================================================== *)

Section ByIdFacts.
Context {A : Type} `{Document A}.



Lemma findByIdAndDelete_split (i : ObjectId) (c c' : list A) (d : A) :
  findByIdAndDelete i c = Some (d, c') ->
  exists before after,
    c = before ++ d :: after /\ doc_id d = i /\ c' = before ++ after.
Proof.
  revert c'. induction c as [|y c IH]; simpl; intros c'; [discriminate|].
  destruct (has_id i y) eqn:E.
  - intros [= <- <-]. exists [], c. apply has_id_eq in E. tauto.
  - destruct (findByIdAndDelete i c) as [[d0 c0]|]; [|discriminate].
    intros [= <- <-].
    destruct (IH c0 eq_refl) as (before & after & -> & Hd & ->).
    exists (y :: before), after. tauto.
Qed.

Lemma findByIdAndDelete_none (i : ObjectId) (c : list A) :
  ~ In i (map doc_id c) -> findByIdAndDelete i c = None.
Proof.
  induction c as [|y c IH]; simpl; intros Hi; [reflexivity|].
  destruct (has_id i y) eqn:E.
  - apply has_id_eq in E. tauto.
  - rewrite IH; [reflexivity|tauto].
Qed.

Lemma findOne_no_id (i : ObjectId) (c : list A) :
  ~ In i (map doc_id c) -> findOne (has_id i) c = None.
Proof.
  intros Hi. apply findOne_none. intros x Hx.
  destruct (has_id i x) eqn:E; [|reflexivity]. apply has_id_eq in E.
  exfalso. apply Hi. rewrite <- E. now apply in_map.
Qed.

End ByIdFacts.


(** X16. DELETE /api/products/:id takes the product out and nothing else.
    When it answers 200 (product [_id]s being unique), exactly the product
    with that [_id] is gone and the other products keep their order; the
    same request again answers 404 "Product not found"; no cart or order is
    touched, so a cart or order line that refers to the deleted product
    stays and expands to [null]. *)
Theorem delete_products_effect (s : Store) (user : Identity) (id : string) :
  unique_product_ids s ->
  status (snd (delete_products s user id)) = 200 ->
  let s' := fst (delete_products s user id) in
  exists oid before deleted after,
    castObjectId (Js.Str id) = Some (Val oid)
    /\ Product._id deleted = oid
    /\ products s = before ++ deleted :: after
    /\ s' = set_products s (before ++ after)
    /\ delete_products s' user id
       = (s', json 404 (Message "Product not found"))
    /\ forall l, Line.product l = oid ->
                 populate_lines s' [l] = [(None, Line.quantity l)].
Proof.
  intros Hids. unfold delete_products.
  destruct (not_authorized user) eqn:Hgate; [discriminate|].
  destruct (castObjectId (Js.Str id)) as [[| |oid]|] eqn:Hcast;
    try discriminate.
  destruct (findByIdAndDelete oid (products s)) as [[deleted ps]|] eqn:Hfound;
    [|discriminate].
  intros _. cbv zeta. cbn [fst].
  destruct (findByIdAndDelete_split oid (products s) ps deleted Hfound)
    as (before & after & Hproducts & Hdeleted & ->).
  assert (Hgone : ~ In oid (map Product._id (before ++ after))).
  { unfold unique_product_ids in Hids. rewrite Hproducts, map_app in Hids.
    cbn [map] in Hids. apply NoDup_remove_2 in Hids.
    change (doc_id deleted) with (Product._id deleted) in Hdeleted.
    rewrite Hdeleted in Hids. now rewrite map_app. }
  exists oid, before, deleted, after. repeat split; try assumption.
  - cbn [products set_products].
    now rewrite (@findByIdAndDelete_none _ Product_Document oid _ Hgone).
  - intros l Hl. unfold populate_lines. cbn [map products set_products].
    rewrite Hl.
    now rewrite (@findOne_no_id _ Product_Document oid _ Hgone).
Qed.

Lemma delete_products_effect_witness :
  let s' := fst (delete_products Sample.catalog Sample.admin Sample.soap) in
  delete_products s' Sample.admin Sample.soap
  = (s', json 404 (Message "Product not found"))
  /\ get_cart s' Sample.alice
     = ok (CartView Sample.alice_cart
             [(None, 2); (Some (Sample.product Sample.tea "Tea" 80), 1)]).
Proof.
  assert (Hids : unique_product_ids Sample.catalog).
  { repeat constructor; simpl; intuition discriminate. }
  destruct (delete_products_effect Sample.catalog Sample.admin Sample.soap
              Hids eq_refl)
    as (oid & before & deleted & after & _ & _ & _ & _ & Hagain & _).
  split; [exact Hagain|reflexivity].
Defined.

(* ===================================================================== *)
(** ** Banners *)
(* ===================================================================== *)

Lemma get_banner_found (s : Store) (b : Banner.t) :
  In b (banners s) -> Banner.active b = Val true ->
  exists shown,
    get_banner s = ok (BannerBody shown)
    /\ Banner.order shown <= Banner.order b.
Proof.
  intros Hin Hactive. unfold get_banner, findOne_sorted, find.
  assert (Hb : In b (sort Banner.order (filter is_active (banners s)))).
  { apply sort_In. apply filter_In.
    split; [assumption|now apply is_active_true]. }
  pose proof (sort_least_first Banner.order (filter is_active (banners s)))
    as Hleast.
  destruct (sort Banner.order (filter is_active (banners s)))
    as [|shown rest]; [destruct Hb|].
  exists shown. split; [reflexivity|]. now apply Hleast.
Qed.

(** What a banner creation answered with 201 has done. *)
Lemma post_banner_created (s : Store) (e : Env) (user : Identity)
    (image title subtitle link active order : Js.value) :
  status (snd (post_banner s e user image title subtitle link active order))
  = 201 ->
  exists banner,
    new_Banner (fresh_id e) image title subtitle link
      (if Js.is_undefined active then Js.Bool true else active)
      (Js.or order (Js.Num (Js.Int 0))) = Some banner
    /\ post_banner s e user image title subtitle link active order
       = (set_banners s (banners s ++ [banner]), json 201 (BannerBody banner)).
Proof.
  unfold post_banner.
  destruct (not_authorized user); [discriminate|].
  destruct (Js.not image); [discriminate|].
  destruct (new_Banner _ _ _ _ _ _ _) as [banner|]; [|discriminate].
  destruct (insert banner (banners s)) as [bs|] eqn:Hins; [|discriminate].
  intros _. apply insert_ids in Hins. destruct Hins as [-> _].
  now exists banner.
Qed.

Lemma new_Banner_defaults (_id : ObjectId)
    (image title subtitle link active order : Js.value) (banner : Banner.t) :
  new_Banner _id image title subtitle link
    (if Js.is_undefined active then Js.Bool true else active)
    (Js.or order (Js.Num (Js.Int 0))) = Some banner ->
  (active = Js.Undefined -> Banner.active banner = Val true)
  /\ (order = Js.Undefined -> Banner.order banner = 0).
Proof.
  unfold new_Banner.
  destruct (required_string (castString image)); [|discriminate].
  destruct (castString title); [|discriminate].
  destruct (castString subtitle); [|discriminate].
  destruct (castString link); [|discriminate].
  destruct (with_default true _) as [a|] eqn:Ha; [|discriminate].
  destruct (required _) as [o|] eqn:Ho; [|discriminate].
  intros [= <-]. cbn [Banner.active Banner.order]. split.
  - intros ->. simpl in Ha. congruence.
  - intros ->. simpl in Ho. congruence.
Qed.

(** X17. What a new banner does to the banner the site shows.  When
    POST /api/banner answers 201: a banner stored as active makes
    GET /api/banner answer 200 with a banner whose order is at most the new
    one's; a banner stored as not active ([active] false or null) leaves the
    answer of GET /api/banner as it was; and [active] defaults to true and
    [order] to 0 when the request leaves them out. *)
Theorem post_banner_then_get_banner (s : Store) (e : Env) (user : Identity)
    (image title subtitle link active order : Js.value) :
  status (snd (post_banner s e user image title subtitle link active order))
  = 201 ->
  let s' := fst (post_banner s e user image title subtitle link active order) in
  exists banner,
    snd (post_banner s e user image title subtitle link active order)
    = json 201 (BannerBody banner)
    /\ (Banner.active banner = Val true ->
        exists shown,
          get_banner s' = ok (BannerBody shown)
          /\ Banner.order shown <= Banner.order banner)
    /\ (Banner.active banner <> Val true -> get_banner s' = get_banner s)
    /\ (active = Js.Undefined -> Banner.active banner = Val true)
    /\ (order = Js.Undefined -> Banner.order banner = 0).
Proof.
  intros Hcreated s'.
  destruct (post_banner_created s e user image title subtitle link active
              order Hcreated) as (banner & Hnew & Hrun).
  assert (Hbanners : banners s' = banners s ++ [banner]).
  { unfold s'. now rewrite Hrun. }
  exists banner. split; [now rewrite Hrun|]. split; [|split].
  - intros Hactive. apply get_banner_found; [|exact Hactive].
    rewrite Hbanners. apply in_or_app. right. now left.
  - intros Hinactive. unfold get_banner, findOne_sorted, find.
    rewrite Hbanners, filter_app. cbn [filter].
    destruct (is_active banner) eqn:E.
    + apply is_active_true in E. contradiction.
    + now rewrite app_nil_r.
  - exact (new_Banner_defaults _ _ _ _ _ _ _ _ Hnew).
Qed.

Lemma post_banner_then_get_banner_witness :
  let s' := fst (post_banner Sample.gallery (Sample.env 1 "64f000000000000000000005")
                   Sample.admin (Js.Str "new.png") Js.Undefined Js.Undefined
                   Js.Undefined Js.Undefined Js.Undefined) in
  exists shown,
    get_banner s' = ok (BannerBody shown) /\ Banner.order shown <= 0.
Proof.
  destruct (post_banner_then_get_banner Sample.gallery
              (Sample.env 1 "64f000000000000000000005") Sample.admin
              (Js.Str "new.png") Js.Undefined Js.Undefined Js.Undefined
              Js.Undefined Js.Undefined eq_refl)
    as (banner & _ & Hactive & _ & Hdefault & Horder).
  destruct (Hactive (Hdefault eq_refl)) as (shown & Hget & Hle).
  exists shown. split; [exact Hget|]. rewrite (Horder eq_refl) in Hle.
  exact Hle.
Defined.

(* ===================================================================== *)
(** ** From registration to a gated route *)
(* ===================================================================== *)

Lemma auth_bearer (jwt_verify : Z -> string -> option Identity) (e : Env)
    (token : string) (user : Identity) :
  Js.split " " token = [token] -> token <> ""%string ->
  jwt_verify (now e) token = Some user ->
  auth jwt_verify e (Some ("Bearer " ++ token)%string) = inl user.
Proof.
  intros Htoken Hnonempty Hverify. unfold auth.
  rewrite bearer_header, (index_split_word "Bearer" token eq_refl), Htoken.
  unfold Js.index, Js.not. cbn [nth_error Js.truthy Js.to_string].
  destruct token as [|c token]; [congruence|]. cbn [String.eqb negb].
  now rewrite Hverify.
Qed.

Lemma post_products_valid (s : Store) (e : Env) (user : Identity)
    (name : string) (price : Z) :
  not_authorized user = false -> name <> ""%string ->
  ~ In (fresh_id e) (map Product._id (products s)) ->
  let product :=
    Product.make (fresh_id e) name price Missing Missing Missing 0 false
      (id user) in
  post_products s e user (Js.Str name) (Js.Num (Js.Int price)) Js.Undefined
    Js.Undefined Js.Undefined Js.Undefined Js.Undefined
  = (set_products s (products s ++ [product]), json 201 (ProductBody product)).
Proof.
  intros Hgate Hname Hfresh product. unfold post_products. rewrite Hgate.
  unfold Js.not. cbn [Js.truthy Js.is_undefined].
  pose proof Hname as Hempty. apply String.eqb_neq in Hempty. rewrite Hempty.
  cbn [negb orb]. unfold new_Product.
  rewrite (required_string_nonempty name Hname).
  cbn [castNumber castString Js.to_number Js.or Js.truthy required with_default
       Js.strict_eq orb].
  fold product. now rewrite (insert_fresh product (products s)).
Qed.

(** X18. The role a client names at registration is the role the gate
    later sees.  When a registration with role "admin" succeeds, the login
    with the same email and password answers the token signed for the new
    user's [_id] and the role "admin"; and a POST /api/products that carries
    this token as "Bearer" (the token being one word that verifies to what
    was signed), with a non-empty name, a numeric price and an unused
    [_id], is answered 201 with the product stored as created by that
    user. *)
Theorem registered_admin_creates_product
    (jwt_sign : Z -> Identity -> string)
    (jwt_verify : Z -> string -> option Identity)
    (s : Store) (e1 e2 e3 : Env) (name email password : Js.value)
    (title : string) (price : Z) :
  let who := mkIdentity (fresh_id e1) (Js.Str "admin") in
  let token := jwt_sign (now e2) who in
  let s1 := fst (handle jwt_sign jwt_verify s e1
                   (PostRegister name email password (Js.Str "admin"))) in
  status (snd (handle jwt_sign jwt_verify s e1
                 (PostRegister name email password (Js.Str "admin")))) = 201 ->
  Js.split " " token = [token] -> token <> ""%string ->
  jwt_verify (now e3) token = Some who ->
  title <> ""%string ->
  ~ In (fresh_id e3) (map Product._id (products s)) ->
  snd (handle jwt_sign jwt_verify s1 e2 (PostLogin email password))
  = ok (TokenBody token)
  /\ exists product,
       handle jwt_sign jwt_verify s1 e3
         (PostProducts (Some ("Bearer " ++ token)%string) (Js.Str title)
            (Js.Num (Js.Int price)) Js.Undefined Js.Undefined Js.Undefined
            Js.Undefined Js.Undefined)
       = (set_products s1 (products s1 ++ [product]),
          json 201 (ProductBody product))
       /\ Product.createdBy product = fresh_id e1.
Proof.
  intros who token s1 Hcreated Hword Hnonempty Hverify Htitle Hfresh.
  cbn [handle] in Hcreated.
  destruct (post_register_created s e1 name email password (Js.Str "admin")
              Hcreated)
    as (address & plain & user & Hemail & Hcast & Hnone & -> & Hid & Haddress
        & Hdigest & Hrole & Hrun).
  assert (Hs1 : s1 = set_users s (users s ++ [user])).
  { unfold s1. cbn [handle]. now rewrite Hrun. }
  simpl in Hrole. injection Hrole as Hrole.
  split.
  - assert (Hplain : Js.truthy (Js.Str plain) = true).
    { revert Hcreated. unfold post_register, Js.not.
      destruct (Js.truthy name); [|discriminate].
      rewrite Hemail. cbn [negb orb].
      destruct (Js.truthy (Js.Str plain)); [reflexivity|discriminate]. }
    cbn [handle snd]. unfold post_login, Js.not.
    rewrite Hemail, Hplain, Hcast, Hs1. cbn [negb orb users set_users].
    rewrite (findOne_app_none _ (users s) user Hnone)
      by (rewrite Haddress; apply String.eqb_refl).
    rewrite Hdigest. cbn [Bcrypt.compare]. rewrite String.eqb_refl.
    rewrite Hid, <- Hrole. reflexivity.
  - cbn [handle]. unfold protected.
    rewrite (auth_bearer jwt_verify e3 token who Hword Hnonempty Hverify).
    eexists. split.
    + apply post_products_valid; [reflexivity|exact Htitle|].
      rewrite Hs1. exact Hfresh.
    + reflexivity.
Qed.

Lemma registered_admin_creates_product_witness :
  let sign := Sample.sign in
  let verify :=
    Sample.verify_one "token.64b000000000000000000004"
      (mkIdentity "64b000000000000000000004" (Js.Str "admin")) in
  let s1 := fst (handle sign verify empty_store
                   (Sample.env 1 "64b000000000000000000004")
                   (PostRegister (Js.Str "Eve") (Js.Str "eve@soko.test")
                      (Js.Str "hunter2") (Js.Str "admin"))) in
  snd (handle sign verify s1 (Sample.env 2 "")
         (PostLogin (Js.Str "eve@soko.test") (Js.Str "hunter2")))
  = ok (TokenBody "token.64b000000000000000000004")
  /\ exists product,
       handle sign verify s1 (Sample.env 3 "64c0000000000000000000b1")
         (PostProducts (Some "Bearer token.64b000000000000000000004")
            (Js.Str "Soap") (Js.Num (Js.Int 120)) Js.Undefined Js.Undefined
            Js.Undefined Js.Undefined Js.Undefined)
       = (set_products s1 (products s1 ++ [product]),
          json 201 (ProductBody product))
       /\ Product.createdBy product = "64b000000000000000000004"%string.
Proof.
  cbv zeta.
  apply (registered_admin_creates_product Sample.sign
           (Sample.verify_one "token.64b000000000000000000004"
              (mkIdentity "64b000000000000000000004" (Js.Str "admin")))
           empty_store (Sample.env 1 "64b000000000000000000004")
           (Sample.env 2 "") (Sample.env 3 "64c0000000000000000000b1")
           (Js.Str "Eve") (Js.Str "eve@soko.test") (Js.Str "hunter2")
           "Soap" 120);
    try reflexivity; try discriminate.
  simpl. tauto.
Defined.

(* ===================================================================== *)
(** ** The featured list is complete up to its cap *)
(* ===================================================================== *)

(** X19. GET /api/products/featured answers the first 8 featured products
    in stored order: the list is a prefix of the featured products, its
    length is the smaller of 8 and their number, and when at most 8
    products are featured every one of them is listed. *)
Theorem get_products_featured_complete (s : Store) :
  exists l rest,
    get_products_featured s = ok (FeaturedList l)
    /\ filter Product.featured (products s) = l ++ rest
    /\ List.length l
       = Nat.min 8 (List.length (filter Product.featured (products s)))
    /\ ((List.length (filter Product.featured (products s)) <= 8)%nat ->
        forall p, In p (products s) -> Product.featured p = true -> In p l).
Proof.
  unfold get_products_featured, limit, find.
  exists (firstn 8 (filter Product.featured (products s))),
         (skipn 8 (filter Product.featured (products s))).
  split; [reflexivity|]. split; [now rewrite firstn_skipn|].
  split; [apply length_firstn|].
  intros Hfew p Hin Hfeatured. rewrite firstn_all2 by exact Hfew.
  apply filter_In. tauto.
Qed.

(* ===================================================================== *)
(** ** Quantities and product ids that are not what the client meant *)
(* ===================================================================== *)




(** X21. A product id sent in another spelling than the printed one (upper
    case digits) is not recognised as the product of an existing line: the
    comparison is on the text, the stored reference is the id itself.  For a
    spelling that casts to the id [p] and is the text of no line of the
    cart, POST /api/cart with a positive number appends a line for [p],
    whether or not the cart already has one. *)
Theorem post_cart_other_spelling (s : Store) (e : Env) (user : Identity)
    (spelled : string) (p : ObjectId) (q : Z) (cart : Cart.t) :
  castObjectId (Js.Str spelled) = Some (Val p) ->
  lines_for spelled (Cart.products cart) = [] ->
  0 < q -> unique_cart_ids s ->
  findOne (owned_by user) (carts s) = Some cart ->
  cart_lines (fst (post_cart s e user (Js.Str spelled) (Js.Num (Js.Int q))))
    user
  = Cart.products cart ++ [Line.make p q].
Proof.
  intros Hcast Hnone Hq Hids Hcart. unfold post_cart.
  assert (Hguard : Js.not (Js.Str spelled) || Js.not (Js.Num (Js.Int q))
                   || Js.le_num (Js.Num (Js.Int q)) 0 = false).
  { assert (Js.not (Js.Str spelled) = false) as ->.
    { destruct spelled; [discriminate|reflexivity]. }
    unfold Js.not, Js.le_num. cbn [Js.truthy Js.to_number].
    replace (q =? 0) with false by (symmetry; apply Z.eqb_neq; lia).
    replace (q <=? 0) with false by (symmetry; apply Z.leb_gt; lia).
    reflexivity. }
  rewrite Hguard, Hcart, (findIndex_none spelled _ Hnone).
  unfold new_Line. rewrite Hcast. cbn [required castNumber Js.to_number option_map].
  unfold cart_lines. cbn [fst carts set_carts].
  set (cart' := Cart.make _ _ _).
  assert (Hfound : findOne (owned_by user) (update cart' (carts s))
                   = Some cart').
  { apply findOne_update with (x := cart); try assumption; try reflexivity.
    apply findOne_in in Hcart. exact (proj2 Hcart). }
  now rewrite Hfound.
Qed.

Lemma post_cart_other_spelling_witness :
  lines_for Sample.soap
    (cart_lines (fst (post_cart Sample.shop (Sample.env 1 "") Sample.alice
                        (Js.Str "64C0000000000000000000A1")
                        (Js.Num (Js.Int 5)))) Sample.alice)
  = [Line.make Sample.soap 2; Line.make Sample.soap 5].
Proof.
  assert (Hids : unique_cart_ids Sample.shop).
  { repeat constructor; simpl; tauto. }
  assert (Hq : 0 < 5) by lia.
  rewrite (post_cart_other_spelling Sample.shop (Sample.env 1 "") Sample.alice
             "64C0000000000000000000A1" Sample.soap 5 Sample.alice_cart
             eq_refl eq_refl Hq Hids eq_refl).
  reflexivity.
Defined.

(* ===================================================================== *)
(** ** One line per product *)
(* ===================================================================== *)

Lemma update_at_map {A B : Type} (g : A -> B) (change : A -> option A)
    (index : nat) (xs ys : list A) :
  (forall x y, change x = Some y -> g y = g x) ->
  update_at index change xs = Some ys -> map g ys = map g xs.
Proof.
  intros Hchange. revert index ys.
  induction xs as [|x xs IH]; intros [|i] ys; simpl; try discriminate.
  - destruct (change x) as [x'|] eqn:Hx; [|discriminate].
    intros [= <-]. simpl. now rewrite (Hchange x x' Hx).
  - destruct (update_at i change xs) as [zs|] eqn:Hzs; [|discriminate].
    intros [= <-]. simpl. now rewrite (IH i zs Hzs).
Qed.

Lemma add_quantity_product (quantity : Js.value) (l l' : Line.t) :
  add_quantity quantity l = Some l' -> Line.product l' = Line.product l.
Proof.
  unfold add_quantity. destruct (required _); [|discriminate].
  now intros [= <-].
Qed.

Lemma findIndex_none_all {A : Type} (f : A -> bool) (xs : list A) :
  Js.findIndex f xs = None -> forall x, In x xs -> f x = false.
Proof.
  induction xs as [|y xs IH]; simpl; [tauto|].
  destruct (f y) eqn:E; [discriminate|].
  destruct (Js.findIndex f xs); [discriminate|].
  intros _ x [<-|Hx]; [exact E|now apply IH].
Qed.

Lemma NoDup_map_filter {A B : Type} (g : A -> B) (f : A -> bool)
    (xs : list A) :
  NoDup (map g xs) -> NoDup (map g (filter f xs)).
Proof.
  induction xs as [|x xs IH]; simpl; [tauto|].
  intros Hnd. inversion Hnd as [|? ? Hx Hxs]; subst.
  destruct (f x); simpl; [|now apply IH].
  constructor; [|now apply IH].
  intros Hin. apply Hx. apply in_map_iff in Hin.
  destruct Hin as (y & Hy & Hin). apply filter_In in Hin.
  rewrite <- Hy. apply in_map. tauto.
Qed.

Lemma distinct_update (s : Store) (cart' : Cart.t) :
  distinct_products s ->
  NoDup (map Line.product (Cart.products cart')) ->
  distinct_products (set_carts s (update cart' (carts s))).
Proof.
  intros Hs Hcart' cart Hcart. cbn [carts set_carts] in Hcart.
  apply (@update_In _ Cart_Document) in Hcart.
  destruct Hcart as [->|Hcart]; [exact Hcart'|now apply Hs].
Qed.

Lemma new_Line_product (productId quantity : Js.value) (l : Line.t) :
  new_Line productId quantity = Some l ->
  castObjectId productId = Some (Val (Line.product l)).
Proof.
  unfold new_Line.
  destruct (castObjectId productId) as [[| |p]|]; try discriminate.
  cbn [required]. destruct (required (castNumber quantity)); [|discriminate].
  now intros [= <-].
Qed.

Lemma post_cart_distinct (s : Store) (e : Env) (user : Identity)
    (productId quantity : Js.value) :
  (forall p, castObjectId productId = Some (Val p) -> productId = Js.Str p) ->
  distinct_products s ->
  distinct_products (fst (post_cart s e user productId quantity)).
Proof.
  intros Hprinted Hs. unfold post_cart.
  destruct (_ || _ || _); [exact Hs|].
  destruct (findOne (owned_by user) (carts s)) as [cart|] eqn:Hcart.
  - pose proof (proj1 (findOne_in _ _ _ Hcart)) as Hin.
    destruct (Js.findIndex _ _) as [index|] eqn:Hindex.
    + destruct (update_at index _ _) as [ps|] eqn:Hps; [|exact Hs].
      apply distinct_update; [exact Hs|]. cbn [Cart.products].
      rewrite (update_at_map Line.product _ _ _ _
                 (add_quantity_product quantity) Hps).
      now apply Hs.
    + destruct (new_Line productId quantity) as [l0|] eqn:Hnew; [|exact Hs].
      apply distinct_update; [exact Hs|]. cbn [Cart.products option_map].
      rewrite map_app. apply NoDup_app; [now apply Hs| |].
      * repeat constructor; simpl; tauto.
      * intros a Ha [<-|[]]. apply in_map_iff in Ha.
        destruct Ha as (x & Hx & Hxin).
        pose proof (findIndex_none_all _ _ Hindex x Hxin) as Hneq.
        unfold line_of in Hneq.
        rewrite (Hprinted _ (new_Line_product _ _ _ Hnew)) in Hneq.
        cbn [Js.strict_eq] in Hneq. apply String.eqb_neq in Hneq. congruence.
  - destruct (new_Line productId quantity) as [l0|] eqn:Hnew; [|exact Hs].
    destruct (insert _ (carts s)) as [cs|] eqn:Hins; [|exact Hs].
    apply insert_ids in Hins. destruct Hins as [-> _].
    intros cart Hcart'. cbn [fst carts set_carts] in Hcart'.
    apply in_app_or in Hcart'. destruct Hcart' as [Hcart'|[<-|[]]].
    + now apply Hs.
    + repeat constructor; simpl; tauto.
Qed.

(** X22. A request that runs on its own keeps one line per product: when
    it starts on a store in which no cart has two lines for one product,
    and (if it adds to a cart) names the product by the printed form of its
    [_id], the store it leaves has no cart with two lines for one product.
    It rests on the handler looking up the line before it pushes one, with
    no other write between the two, and on that spelling of the id. *)
Theorem request_keeps_distinct_products (jwt_sign : Z -> Identity -> string)
    (jwt_verify : Z -> string -> option Identity)
    (s : Store) (e : Env) (r : Request) :
  distinct_products s -> printed_product r ->
  distinct_products (fst (handle jwt_sign jwt_verify s e r)).
Proof.
  intros Hs Hr.
  destruct r; cbn [handle fst]; try exact Hs;
    try (apply protected_preserves; [exact Hs|intros user; cbn [fst]];
         try exact Hs).
  - unfold post_register. split_cases; exact Hs.
  - unfold post_products. split_cases; exact Hs.
  - unfold put_products_featured. split_cases; exact Hs.
  - unfold delete_products. split_cases; exact Hs.
  - now apply post_cart_distinct.
  - unfold delete_cart.
    destruct (findOne (owned_by user) (carts s)) as [cart|] eqn:Hcart;
      [|exact Hs].
    apply distinct_update; [exact Hs|]. cbn [Cart.products].
    apply NoDup_map_filter. apply Hs.
    exact (proj1 (findOne_in _ _ _ Hcart)).
  - unfold post_banner. split_cases; exact Hs.
  - unfold post_orders.
    destruct (findOne (owned_by user) (carts s)) as [cart|]; [|exact Hs].
    destruct (_ =? _)%nat; [exact Hs|].
    destruct (insert _ (orders s)) as [os|]; [|exact Hs].
    cbn [fst]. intros c Hc. cbn [carts set_carts set_orders] in Hc.
    apply (@update_In _ Cart_Document) in Hc. destruct Hc as [->|Hc].
    + constructor.
    + now apply Hs.
Qed.

Lemma request_keeps_distinct_products_witness :
  cart_lines
    (fst (handle Sample.sign (Sample.verify_one "abc.def.ghi" Sample.alice)
            Sample.shop (Sample.env 1 "")
            (PostCart (Some "Bearer abc.def.ghi") (Js.Str Sample.soap)
               (Js.Num (Js.Int 3))))) Sample.alice
  = [Line.make Sample.soap 5; Line.make Sample.tea 1]
  /\ distinct_products
       (fst (handle Sample.sign (Sample.verify_one "abc.def.ghi" Sample.alice)
               Sample.shop (Sample.env 1 "")
               (PostCart (Some "Bearer abc.def.ghi") (Js.Str Sample.soap)
                  (Js.Num (Js.Int 3))))).
Proof.
  split; [reflexivity|].
  apply request_keeps_distinct_products.
  - intros cart [<-|[]]. repeat constructor; simpl; intuition discriminate.
  - intros p [= <-]. reflexivity.
Defined.
